(** * CNC job manager: sheet statuses, optimistic updates and broadcasts

    A shallow embedding of the per-sheet status handling of the job
    manager: the request handlers of [server/routes.ts], the tables of
    [shared/schema.ts] and the job popup component (optimistic sheet
    statuses, status cycle, rollback).  Handlers are functions from a
    request and a server state to a response and a new state; the popup
    is a record of its React state with one function per callback. *)

From Stdlib Require Import ZArith QArith Ascii String List Lia.
From stdpp Require Import base option list gmap strings.

Local Open Scope string_scope.
Local Open Scope list_scope.
Local Open Scope Z_scope.

(** ** JavaScript values as the handlers see them *)

Module JS.

(** A value read from a JSON body or produced by [parseInt].  A finite
    number is a rational; [JNaN] is what [parseInt] yields on a string
    with no digits; an array or object is kept by the string its
    conversion to a primitive yields. *)
Inductive jsval : Type :=
| JUndefined
| JNull
| JBool (b : bool)
| JNum (q : Q)
| JNaN
| JStr (s : string)
| JObject (prim : string).

(** The two built-in string conversions the handlers rely on. *)
Class Builtins := {
  parseInt : string → option Z;
  StringToNumber : string → option Q
}.

(** [!!v] *)
Definition truthy (v : jsval) : bool :=
  match v with
  | JUndefined | JNull | JNaN => false
  | JBool b => b
  | JNum q => negb (Qeq_bool q 0)
  | JStr s => negb (String.eqb s "")
  | JObject _ => true
  end.

(** [Number(v)]; [None] is NaN. *)
Definition ToNumber `{Builtins} (v : jsval) : option Q :=
  match v with
  | JUndefined | JNaN => None
  | JNull => Some 0%Q
  | JBool b => Some (if b then 1%Q else 0%Q)
  | JNum q => Some q
  | JStr s => StringToNumber s
  | JObject p => StringToNumber p
  end.

(** [v < n] for a number literal [n]: false as soon as [v] is NaN. *)
Definition lt_num `{Builtins} (v : jsval) (n : Q) : bool :=
  match ToNumber v with
  | Some q => negb (Qle_bool n q)
  | None => false
  end.

(** [v === undefined] *)
Definition is_undefined (v : jsval) : bool :=
  match v with
  | JUndefined => true
  | _ => false
  end.

(** The result of [parseInt(s)] as a value. *)
Definition num_of (o : option Z) : jsval :=
  match o with
  | Some z => JNum (inject_Z z)
  | None => JNaN
  end.

(** [a || b] on strings that may be undefined. *)
Definition or_else (a : option string) (b : string) : string :=
  match a with
  | Some s => if String.eqb s "" then b else s
  | None => b
  end.

End JS.

(** ** Rows of [shared/schema.ts] *)

Module Schema.

(** [jobMaterials]; [sheetStatuses] is a nullable text array.  The
    [createdAt] timestamp is left out. *)
Record JobMaterial := {
  id : Z;
  cutlistId : option Z;
  colorId : Z;
  totalSheets : Z;
  completedSheets : Z;
  sheetStatuses : option (list string)
}.

(** [recutEntries] *)
Record RecutEntry := {
  recut_id : Z;
  materialId : Z;
  quantity : Z;
  reason : option string;
  recut_sheetStatuses : option (list string);
  recut_completedSheets : Z;
  userId : option Z
}.

(** The part of [JobWithMaterials] the popup reads. *)
Record Cutlist := { materials : list JobMaterial }.
Record JobWithMaterials := { cutlists : list Cutlist }.

(** [users] rows as kept in the session. *)
Record User := { user_id : Z; username : string; role : string }.

End Schema.

(** ** The job popup component *)

Module Popup.
Import JS Schema.

(** The if-chain of [handleSheetClick]: pending -> cut -> skip -> pending. *)
Definition nextSheetStatus (actualStatus : string) : string :=
  if String.eqb actualStatus "pending" then "cut"
  else if String.eqb actualStatus "cut" then "skip"
  else "pending".

(** The same chain, as written a second time in [handleRecutSheetClick]. *)
Definition nextRecutSheetStatus (actualStatus : string) : string :=
  if String.eqb actualStatus "pending" then "cut"
  else if String.eqb actualStatus "cut" then "skip"
  else "pending".

(** Variables of [updateSheetMutation] and the context [onMutate] returns. *)
Record SheetVars := { v_materialId : Z; v_sheetIndex : nat; v_status : string }.
Record SheetContext := {
  c_materialId : Z; c_sheetIndex : nat; previousStatus : option string
}.

(** [apiRequest('PUT', `/api/materials/${materialId}/sheet-status`, ...)] *)
Record ApiCall := { call_materialId : Z; call_sheetIndex : nat; call_status : string }.

Inductive QueryKey := QJob (jobId : Z) | QJobs | QRecuts (materialId : Z).

Record Toast := { title : string; description : string; variant : string }.

(** The React state of [JobPopup], the query result it renders and a
    log of what it sent.  [inFlight] holds the mutations whose request
    has not been answered, with the context kept for each;
    [currentMutation] is the one the mutation observer reports on. *)
Record PopupState := {
  jobId : Z;
  job : option JobWithMaterials;
  queryError : bool;
  isMinimized : bool;
  optimisticSheetStatuses : gmap Z (gmap nat string);
  inFlight : list (nat * SheetContext);
  currentMutation : option nat;
  nextMutation : nat;
  apiCalls : list ApiCall;
  invalidated : list QueryKey;
  toasts : list Toast
}.

Definition set_optimistic (f : gmap Z (gmap nat string) → gmap Z (gmap nat string))
    (st : PopupState) : PopupState :=
  {| jobId := jobId st; job := job st; queryError := queryError st;
     isMinimized := isMinimized st;
     optimisticSheetStatuses := f (optimisticSheetStatuses st);
     inFlight := inFlight st; currentMutation := currentMutation st;
     nextMutation := nextMutation st; apiCalls := apiCalls st;
     invalidated := invalidated st; toasts := toasts st |}.

(** [optimisticSheetStatuses[materialId]?.[sheetIndex]] *)
Definition optimisticStatus (st : PopupState) (mid : Z) (index : nat) : option string :=
  optimisticSheetStatuses st !! mid ≫= λ row, row !! index.

(** [prev => ({...prev, [materialId]: {...prev[materialId], [sheetIndex]: status}})] *)
Definition write_cell (mid : Z) (index : nat) (status : string)
    (prev : gmap Z (gmap nat string)) : gmap Z (gmap nat string) :=
  <[mid := <[index := status]> (default ∅ (prev !! mid))]> prev.

(** [updateSheetMutation.isPending] *)
Definition isPending (st : PopupState) : bool :=
  match currentMutation st with
  | Some k => bool_decide (k ∈ (inFlight st).*1)
  | None => false
  end.

(** [onMutate]: the optimistic write and the rollback context. *)
Definition onMutate (v : SheetVars) (st : PopupState) : PopupState * SheetContext :=
  (set_optimistic (write_cell (v_materialId v) (v_sheetIndex v) (v_status v)) st,
   {| c_materialId := v_materialId v; c_sheetIndex := v_sheetIndex v;
      previousStatus := optimisticStatus st (v_materialId v) (v_sheetIndex v) |}).

(** [updateSheetMutation.mutate(vars)]: run [onMutate], send the request. *)
Definition mutate (v : SheetVars) (st : PopupState) : PopupState :=
  let '(st1, ctx) := onMutate v st in
  {| jobId := jobId st1; job := job st1; queryError := queryError st1;
     isMinimized := isMinimized st1;
     optimisticSheetStatuses := optimisticSheetStatuses st1;
     inFlight := inFlight st1 ++ [(nextMutation st1, ctx)];
     currentMutation := Some (nextMutation st1);
     nextMutation := S (nextMutation st1);
     apiCalls := apiCalls st1 ++
       [{| call_materialId := v_materialId v; call_sheetIndex := v_sheetIndex v;
           call_status := v_status v |}];
     invalidated := invalidated st1; toasts := toasts st1 |}.

(** [handleSheetClick(materialId, sheetIndex, currentStatus)] *)
Definition handleSheetClick (mid : Z) (index : nat) (currentStatus : string)
    (st : PopupState) : PopupState :=
  let actualStatus :=
    match optimisticStatus st mid index with
    | Some s => s
    | None => currentStatus
    end in
  mutate {| v_materialId := mid; v_sheetIndex := index;
            v_status := nextSheetStatus actualStatus |} st.

(** [material.sheetStatuses?.[index] || 'pending'] *)
Definition serverStatus (m : JobMaterial) (index : nat) : string :=
  or_else (sheetStatuses m ≫= λ l, l !! index) "pending".

(** The [status] a sheet button is rendered with. *)
Definition displayedStatus (st : PopupState) (m : JobMaterial) (index : nat) : string :=
  match optimisticStatus st (id m) index with
  | Some s => s
  | None => serverStatus m index
  end.

(** The counter next to the colour name:
    [material.sheetStatuses?.filter(s => s === 'cut').length || 0]. *)
Definition displayedCompleted (m : JobMaterial) : nat :=
  match sheetStatuses m with
  | Some l => length (filter (λ s, s = "cut") l)
  | None => 0%nat
  end.

(** [recut.sheetStatuses?.filter((s: string) => s === 'cut').length || 0] *)
Definition displayedRecutCompleted (r : RecutEntry) : nat :=
  match recut_sheetStatuses r with
  | Some l => length (filter (λ s, s = "cut") l)
  | None => 0%nat
  end.

(** The material drawn at position [k] of cutlist [c], when the sheet
    grid is drawn at all: not while loading, after a query error,
    without data or minimised. *)
Definition renderedMaterial (st : PopupState) (c k : nat) : option JobMaterial :=
  if queryError st || isMinimized st then None
  else j ← job st; cl ← cutlists j !! c; materials cl !! k.

(** Button [index] of that material exists when
    [index < material.totalSheets] ([Array.from({length: totalSheets})]). *)
Definition renderedButton (st : PopupState) (c k index : nat) : option JobMaterial :=
  m ← renderedMaterial st c k;
  if bool_decide (Z.of_nat index < totalSheets m) then Some m else None.

(** A click on that button: nothing happens on a button that is not
    there or is [disabled={isPending}]; otherwise [onClick] calls
    [handleSheetClick(material.id, index, status)]. *)
Definition clickSheetButton (c k index : nat) (st : PopupState) : PopupState :=
  match renderedButton st c k index with
  | Some m =>
      if isPending st then st
      else handleSheetClick (id m) index (displayedStatus st m index) st
  | None => st
  end.

(** The answer to a request: success, or an error with its message. *)
Inductive Reply := Success | Failure (message : option string).

Definition remove_inflight (k : nat) (st : PopupState) : PopupState :=
  {| jobId := jobId st; job := job st; queryError := queryError st;
     isMinimized := isMinimized st;
     optimisticSheetStatuses := optimisticSheetStatuses st;
     inFlight := filter (λ e, e.1 ≠ k) (inFlight st);
     currentMutation := currentMutation st;
     nextMutation := nextMutation st; apiCalls := apiCalls st;
     invalidated := invalidated st; toasts := toasts st |}.

(** [onSuccess]: only [queryClient.invalidateQueries] on the job query. *)
Definition onSuccess (st : PopupState) : PopupState :=
  {| jobId := jobId st; job := job st; queryError := queryError st;
     isMinimized := isMinimized st;
     optimisticSheetStatuses := optimisticSheetStatuses st;
     inFlight := inFlight st; currentMutation := currentMutation st;
     nextMutation := nextMutation st; apiCalls := apiCalls st;
     invalidated := invalidated st ++ [QJob (jobId st)]; toasts := toasts st |}.

(** [onError]: write [context.previousStatus || 'pending'] back and toast. *)
Definition onError (message : option string) (ctx : SheetContext)
    (st : PopupState) : PopupState :=
  let st1 :=
    set_optimistic
      (write_cell (c_materialId ctx) (c_sheetIndex ctx)
         (or_else (previousStatus ctx) "pending")) st in
  {| jobId := jobId st1; job := job st1; queryError := queryError st1;
     isMinimized := isMinimized st1;
     optimisticSheetStatuses := optimisticSheetStatuses st1;
     inFlight := inFlight st1; currentMutation := currentMutation st1;
     nextMutation := nextMutation st1; apiCalls := apiCalls st1;
     invalidated := invalidated st1;
     toasts := toasts st1 ++
       [{| title := "Error";
           description := or_else message "Failed to update sheet status";
           variant := "destructive" |}] |}.

(** The response to mutation [k] arrives. *)
Definition settle (k : nat) (r : Reply) (st : PopupState) : PopupState :=
  match list_find (λ e, e.1 = k) (inFlight st) with
  | Some (_, (_, ctx)) =>
      let st1 := remove_inflight k st in
      match r with
      | Success => onSuccess st1
      | Failure msg => onError msg ctx st1
      end
  | None => st
  end.

(** The job query delivers a fresh record. *)
Definition refetched (j : JobWithMaterials) (st : PopupState) : PopupState :=
  {| jobId := jobId st; job := Some j; queryError := false;
     isMinimized := isMinimized st;
     optimisticSheetStatuses := optimisticSheetStatuses st;
     inFlight := inFlight st; currentMutation := currentMutation st;
     nextMutation := nextMutation st; apiCalls := apiCalls st;
     invalidated := invalidated st; toasts := toasts st |}.

(** The popup as first shown for a job record. *)
Definition mounted (jid : Z) (j : JobWithMaterials) : PopupState :=
  {| jobId := jid; job := Some j; queryError := false; isMinimized := false;
     optimisticSheetStatuses := ∅; inFlight := []; currentMutation := None;
     nextMutation := 0%nat; apiCalls := []; invalidated := []; toasts := [] |}.

End Popup.

(** ** The request handlers of [server/routes.ts] *)

Module Server.
Import JS Schema.

(** What a storage call settles to: the promise resolves or rejects. *)
Inductive Settled (E A : Type) : Type :=
| Resolved (a : A)
| Rejected (e : E).
Global Arguments Resolved {E A} a.
Global Arguments Rejected {E A} e.

(** The methods of [storage] the sheet handlers call, over a database
    state [DB]; [E] is what a call can reject with.  Arguments arrive
    as the handler passes them: untyped values. *)
Class IStorage (DB E : Type) := {
  updateSheetStatus : jsval → jsval → jsval → DB → Settled E unit * DB;
  updateRecutSheetStatus : jsval → jsval → jsval → DB → Settled E unit * DB;
  addSheetsToMaterial : jsval → jsval → jsval → DB → Settled E unit * DB;
  deleteSheet : jsval → jsval → DB → Settled E unit * DB;
  addRecutEntry : jsval → jsval → jsval → jsval → DB → Settled E unit * DB;
  getRecutEntries : jsval → DB → Settled E (list RecutEntry) * DB;
  addMaterialToJob : jsval → jsval → jsval → DB → Settled E unit * DB
}.

Inductive ReadyState := CONNECTING | OPEN | CLOSING | CLOSED.

#[export] Instance ReadyState_eq_dec : EqDecision ReadyState.
Proof. solve_decision. Defined.

(** A broadcast object [{ type, data: {...} }]: the fields of [data]
    in the order written. *)
Record Message := { msg_type : string; msg_data : list (string * jsval) }.

(** [JSON.stringify] on such an object: a field holding [undefined]
    is dropped, NaN is written as null. *)
Definition JSON_stringify (m : Message) : Message :=
  {| msg_type := msg_type m;
     msg_data :=
       (λ kv, (kv.1, match kv.2 with JNaN => JNull | v => v end)) <$>
       filter (λ kv, is_undefined kv.2 = false) (msg_data m) |}.

(** A socket object: its state and what was sent on it so far. *)
Record WebSocket := { readyState : ReadyState; sent : list Message }.

Record Response := { status : Z; body : string + list RecutEntry }.

Definition json_message (code : Z) (message : string) : Response :=
  {| status := code; body := inl message |}.

(** The server: the database behind [storage], the socket objects and
    the [clients] set, which holds references to sockets. *)
Record ServerState (DB : Type) := {
  db : DB;
  sockets : gmap nat WebSocket;
  clients : gset nat
}.
Global Arguments db {DB} _.
Global Arguments sockets {DB} _.
Global Arguments clients {DB} _.

Record Request := {
  session_user : option User;
  req_user : option User;
  params : gmap string string;
  req_body : gmap string jsval
}.

(** What [broadcastToClients] does to one socket. *)
Definition delivered (messageStr : Message) (members : list nat) (client : nat)
    (ws : WebSocket) : WebSocket :=
  if decide (client ∈ members ∧ readyState ws = OPEN)
  then {| readyState := OPEN; sent := sent ws ++ [messageStr] |}
  else ws.

Section Routes.
Context `{Builtins} {DB E : Type} `{!IStorage DB E}.

Definition Handler : Type := Request → ServerState DB → Response * ServerState DB.

Definition with_db (st : ServerState DB) (d : DB) : ServerState DB :=
  {| db := d; sockets := sockets st; clients := clients st |}.

(** [parseInt(req.params.<name>)] *)
Definition param_int (req : Request) (name : string) : jsval :=
  match params req !! name with
  | Some s => num_of (parseInt s)
  | None => JNaN
  end.

(** [req.body.<name>] *)
Definition body_field (req : Request) (name : string) : jsval :=
  default JUndefined (req_body req !! name).

(** [client.send(messageStr)] when [client.readyState === WebSocket.OPEN]. *)
Definition send_if_open (messageStr : Message) (socks : gmap nat WebSocket)
    (client : nat) : gmap nat WebSocket :=
  match socks !! client with
  | Some ws =>
      match readyState ws with
      | OPEN => <[client := {| readyState := OPEN;
                               sent := sent ws ++ [messageStr] |}]> socks
      | _ => socks
      end
  | None => socks
  end.

(** [broadcastToClients(message)]: [clients.forEach] visits each member of
    the set once; the order of the visits does not show in what each
    socket was sent. *)
Definition broadcastToClients (message : Message) (st : ServerState DB)
    : ServerState DB :=
  let messageStr := JSON_stringify message in
  {| db := db st;
     sockets := foldl (send_if_open messageStr) (sockets st) (elements (clients st));
     clients := clients st |}.

(** [wss.on('connection', ws => clients.add(ws))] for a new socket. *)
Definition on_connection (ws : nat) (st : ServerState DB) : ServerState DB :=
  {| db := db st;
     sockets := <[ws := {| readyState := OPEN; sent := [] |}]> (sockets st);
     clients := {[ws]} ∪ clients st |}.

(** The socket closes, then [ws.on('close', () => clients.delete(ws))]. *)
Definition on_close (ws : nat) (st : ServerState DB) : ServerState DB :=
  {| db := db st;
     sockets := alter (λ s, {| readyState := CLOSED; sent := sent s |}) ws (sockets st);
     clients := clients st ∖ {[ws]} |}.

(** [ws.on('error', ...)]: the socket leaves the set. *)
Definition on_error (ws : nat) (st : ServerState DB) : ServerState DB :=
  {| db := db st; sockets := sockets st; clients := clients st ∖ {[ws]} |}.

(** [requireAuth] *)
Definition requireAuth (next : Handler) : Handler := λ req st,
  match session_user req with
  | None => (json_message 401 "Authentication required", st)
  | Some _ => next req st
  end.

(** [await storage.f(...)] inside [try], then the rest of the body or
    the [catch] branch answering 500. *)
Definition try_storage {A} (call : DB → Settled E A * DB) (failed : string)
    (st : ServerState DB) (rest : A → ServerState DB → Response * ServerState DB)
    : Response * ServerState DB :=
  match call (db st) with
  | (Resolved a, d) => rest a (with_db st d)
  | (Rejected _, d) => (json_message 500 failed, with_db st d)
  end.

(** POST /api/materials/:id/add-sheets *)
Definition add_sheets_handler : Handler := λ req st,
  let materialId := param_int req "id" in
  let additionalSheets := body_field req "additionalSheets" in
  let isRecut := body_field req "isRecut" in
  if negb (truthy additionalSheets) || lt_num additionalSheets 1 then
    (json_message 400 "Additional sheets must be a positive number", st)
  else
    try_storage (addSheetsToMaterial materialId additionalSheets isRecut)
      "Failed to add sheets" st
      (λ _ st', (json_message 200 "Sheets added successfully", st')).

Definition post_materials_add_sheets : Handler := requireAuth add_sheets_handler.

(** POST /api/materials/:materialId/sheets/:sheetIndex *)
Definition post_sheet_handler : Handler := λ req st,
  let materialId := param_int req "materialId" in
  let sheetIndex := param_int req "sheetIndex" in
  let status := body_field req "status" in
  try_storage (updateSheetStatus materialId sheetIndex status)
    "Failed to update sheet status" st
    (λ _ st',
       (json_message 200 "Sheet status updated",
        broadcastToClients
          {| msg_type := "sheet_status_updated";
             msg_data := [("materialId", materialId); ("sheetIndex", sheetIndex);
                          ("status", status)] |} st')).

Definition post_materials_sheets : Handler := requireAuth post_sheet_handler.

(** PUT /api/materials/:id/sheet-status *)
Definition sheet_status_handler : Handler := λ req st,
  let id := param_int req "id" in
  let sheetIndex := body_field req "sheetIndex" in
  let status := body_field req "status" in
  try_storage (updateSheetStatus id sheetIndex status)
    "Failed to update sheet status" st
    (λ _ st',
       (json_message 200 "Sheet status updated",
        broadcastToClients
          {| msg_type := "sheet_status_updated";
             msg_data := [("id", id); ("sheetIndex", sheetIndex);
                          ("status", status)] |} st')).

Definition put_materials_sheet_status : Handler := requireAuth sheet_status_handler.

(** DELETE /api/materials/:id/sheet/:sheetIndex *)
Definition delete_sheet_handler : Handler := λ req st,
  let materialId := param_int req "id" in
  let sheetIndex := param_int req "sheetIndex" in
  try_storage (deleteSheet materialId sheetIndex) "Failed to delete sheet" st
    (λ _ st',
       (json_message 200 "Sheet deleted successfully",
        broadcastToClients
          {| msg_type := "sheet_deleted";
             msg_data := [("materialId", materialId); ("sheetIndex", sheetIndex)] |}
          st')).

Definition delete_materials_sheet : Handler := requireAuth delete_sheet_handler.

(** POST /api/materials/:id/recuts *)
Definition add_recut_handler : Handler := λ req st,
  let materialId := param_int req "id" in
  let quantity := body_field req "quantity" in
  let reason := body_field req "reason" in
  let userId :=
    match req_user req with
    | Some u => JNum (inject_Z (user_id u))
    | None => JUndefined
    end in
  if negb (truthy quantity) || lt_num quantity 1 then
    (json_message 400 "Invalid recut quantity", st)
  else
    try_storage (addRecutEntry materialId quantity reason userId)
      "Failed to add recut entry" st
      (λ _ st',
         (json_message 200 "Recut entry added successfully",
          broadcastToClients
            {| msg_type := "recut_added";
               msg_data := [("materialId", materialId); ("quantity", quantity);
                            ("reason", reason)] |} st')).

Definition post_materials_recuts : Handler := requireAuth add_recut_handler.

(** GET /api/materials/:id/recuts: registered without [requireAuth]. *)
Definition get_materials_recuts : Handler := λ req st,
  let materialId := param_int req "id" in
  try_storage (getRecutEntries materialId) "Failed to fetch recut entries" st
    (λ recutEntries st', ({| status := 200; body := inr recutEntries |}, st')).

(** POST /api/jobs/:id/materials *)
Definition add_material_handler : Handler := λ req st,
  let jobId := param_int req "id" in
  let colorId := body_field req "colorId" in
  let totalSheets := body_field req "totalSheets" in
  if negb (truthy colorId) || negb (truthy totalSheets) || lt_num totalSheets 1 then
    (json_message 400 "Color ID and valid sheet count required", st)
  else
    try_storage (addMaterialToJob jobId colorId totalSheets)
      "Failed to add material to job" st
      (λ _ st',
         (json_message 200 "Material added to job successfully",
          broadcastToClients
            {| msg_type := "job_updated"; msg_data := [("jobId", jobId)] |} st')).

Definition post_jobs_materials : Handler := requireAuth add_material_handler.

(** PUT /api/recuts/:id/sheet-status *)
Definition recut_sheet_status_handler : Handler := λ req st,
  let recutId := param_int req "id" in
  let sheetIndex := body_field req "sheetIndex" in
  let status := body_field req "status" in
  try_storage (updateRecutSheetStatus recutId sheetIndex status)
    "Failed to update recut sheet status" st
    (λ _ st',
       (json_message 200 "Recut sheet status updated",
        broadcastToClients
          {| msg_type := "recut_sheet_status_updated";
             msg_data := [("recutId", recutId); ("sheetIndex", sheetIndex);
                          ("status", status)] |} st')).

Definition put_recuts_sheet_status : Handler := requireAuth recut_sheet_status_handler.

End Routes.

End Server.

(** ** The storage operations *)

Module SpecStorage.
Import JS Schema Server.

(** Modelled from the spec: the failure kinds a storage call of
    [server/storage.ts] rejects with (section 7, taxonomy). *)
Inductive ErrorKind := NotFound | OutOfRange | InvalidArgument | StorageFailure.

(** Modelled from the spec: the tables behind [server/storage.ts], the
    materials and recut entries by id, and the next serial id. *)
Record DB := {
  job_materials : gmap Z JobMaterial;
  recut_entries : gmap Z RecutEntry;
  next_id : Z
}.

Definition is_status (s : string) : bool :=
  String.eqb s "pending" || String.eqb s "cut" || String.eqb s "skip".

(** [count(sheetStatuses == cut)] *)
Definition count_cut (l : list string) : Z :=
  Z.of_nat (length (filter (λ s, s = "cut") l)).

Definition with_sheets (m : JobMaterial) (total : Z) (l : list string) : JobMaterial :=
  {| id := id m; cutlistId := cutlistId m; colorId := colorId m;
     totalSheets := total; completedSheets := count_cut l;
     sheetStatuses := Some l |}.

Definition with_recut_sheets (r : RecutEntry) (l : list string) : RecutEntry :=
  {| recut_id := recut_id r; materialId := materialId r; quantity := quantity r;
     reason := reason r; recut_sheetStatuses := Some l;
     recut_completedSheets := count_cut l; userId := userId r |}.

Definition in_range (i n : Z) : bool := (0 <=? i) && (i <? n).

(** Modelled from the spec: [storage.updateSheetStatus] of
    [server/storage.ts] (section 4.1, setSheetStatus): NotFound for an
    absent material, OutOfRange unless [0 <= sheetIndex < totalSheets],
    InvalidArgument for a status outside the three values; otherwise
    the entry is set and [completedSheets] recomputed. *)
Definition setSheetStatus (mid sheetIndex : Z) (status : string) (d : DB)
    : Settled ErrorKind unit * DB :=
  match job_materials d !! mid with
  | None => (Rejected NotFound, d)
  | Some m =>
      if negb (in_range sheetIndex (totalSheets m)) then (Rejected OutOfRange, d)
      else if negb (is_status status) then (Rejected InvalidArgument, d)
      else
        let l := <[Z.to_nat sheetIndex := status]> (default [] (sheetStatuses m)) in
        (Resolved (), {| job_materials :=
                           <[mid := with_sheets m (totalSheets m) l]> (job_materials d);
                         recut_entries := recut_entries d;
                         next_id := next_id d |})
  end.

(** Modelled from the spec: [storage.updateRecutSheetStatus] of
    [server/storage.ts] (section 4.1, setRecutSheetStatus): the same
    contract on a recut entry, bounded by its [quantity]. *)
Definition setRecutSheetStatus (rid sheetIndex : Z) (status : string) (d : DB)
    : Settled ErrorKind unit * DB :=
  match recut_entries d !! rid with
  | None => (Rejected NotFound, d)
  | Some r =>
      if negb (in_range sheetIndex (quantity r)) then (Rejected OutOfRange, d)
      else if negb (is_status status) then (Rejected InvalidArgument, d)
      else
        let l := <[Z.to_nat sheetIndex := status]> (default [] (recut_sheetStatuses r)) in
        (Resolved (), {| job_materials := job_materials d;
                         recut_entries := <[rid := with_recut_sheets r l]> (recut_entries d);
                         next_id := next_id d |})
  end.

(** Modelled from the spec: [storage.deleteSheet] of
    [server/storage.ts] (section 4.1, deleteSheet): the index is
    removed, later entries shift left, [totalSheets] drops by one; the
    derived [completedSheets] is recounted, as section 8 asks of every
    mutation. *)
Definition deleteSheetAt (mid sheetIndex : Z) (d : DB) : Settled ErrorKind unit * DB :=
  match job_materials d !! mid with
  | None => (Rejected NotFound, d)
  | Some m =>
      if negb (in_range sheetIndex (totalSheets m)) then (Rejected OutOfRange, d)
      else
        let l := delete (Z.to_nat sheetIndex) (default [] (sheetStatuses m)) in
        (Resolved (), {| job_materials :=
                           <[mid := with_sheets m (totalSheets m - 1) l]> (job_materials d);
                         recut_entries := recut_entries d;
                         next_id := next_id d |})
  end.

(** Modelled from the spec: [storage.addRecutEntry] of
    [server/storage.ts] (section 4.1, addRecutEntry): a new recut entry
    with an all-pending sequence of length [quantity]; a non-positive
    quantity is an InvalidArgument (section 7). *)
Definition addRecut (mid qty : Z) (why : option string) (uid : option Z) (d : DB)
    : Settled ErrorKind unit * DB :=
  match job_materials d !! mid with
  | None => (Rejected NotFound, d)
  | Some _ =>
      if qty <? 1 then (Rejected InvalidArgument, d)
      else
        (Resolved (),
         {| job_materials := job_materials d;
            recut_entries :=
              <[next_id d := {| recut_id := next_id d; materialId := mid;
                                quantity := qty; reason := why;
                                recut_sheetStatuses := Some (replicate (Z.to_nat qty) "pending");
                                recut_completedSheets := 0; userId := uid |}]>
              (recut_entries d);
            next_id := next_id d + 1 |})
  end.

(** Modelled from the spec: [storage.addSheetsToMaterial] of
    [server/storage.ts] (section 4.1, addSheets): [count] pending
    entries are appended to the material when [isRecut] is false, a
    recut entry of that quantity is created when it is true. *)
Definition addSheets (mid count : Z) (isRecut : bool) (d : DB)
    : Settled ErrorKind unit * DB :=
  if isRecut then addRecut mid count None None d
  else
    match job_materials d !! mid with
    | None => (Rejected NotFound, d)
    | Some m =>
        if count <? 1 then (Rejected InvalidArgument, d)
        else
          let l := default [] (sheetStatuses m) ++ replicate (Z.to_nat count) "pending" in
          (Resolved (),
           {| job_materials :=
                <[mid := {| id := id m; cutlistId := cutlistId m; colorId := colorId m;
                            totalSheets := totalSheets m + count;
                            completedSheets := completedSheets m;
                            sheetStatuses := Some l |}]> (job_materials d);
              recut_entries := recut_entries d;
              next_id := next_id d |})
    end.

(** Modelled from the spec: material creation in [server/storage.ts]
    (section 3, lifecycle): the status sequence starts all-pending, one
    entry per sheet; fewer than one sheet is refused, as
    [createJobSchema] and the add-material handler require. *)
Definition createMaterial (cutlist : option Z) (color total : Z) (d : DB)
    : Settled ErrorKind unit * DB :=
  if total <? 1 then (Rejected InvalidArgument, d)
  else
    (Resolved (),
     {| job_materials :=
          <[next_id d := {| id := next_id d; cutlistId := cutlist; colorId := color;
                            totalSheets := total; completedSheets := 0;
                            sheetStatuses := Some (replicate (Z.to_nat total) "pending") |}]>
          (job_materials d);
        recut_entries := recut_entries d;
        next_id := next_id d + 1 |}).

(** Modelled from the spec: [storage.getRecutEntries] of
    [server/storage.ts]: the recut entries of a material. *)
Definition recutsOf (mid : Z) (d : DB) : list RecutEntry :=
  filter (λ r, materialId r = mid) (map_to_list (recut_entries d)).*2.

(** Modelled from the spec: the mutating operations of [server/storage.ts]
    (sections 3 and 4.1) as one type, and their dispatch. *)
Inductive StoreOp :=
| CreateMaterial (cutlist : option Z) (color total : Z)
| AddSheets (mid count : Z) (isRecut : bool)
| DeleteSheet (mid sheetIndex : Z)
| SetSheetStatus (mid sheetIndex : Z) (status : string)
| SetRecutSheetStatus (rid sheetIndex : Z) (status : string)
| AddRecutEntry (mid qty : Z) (why : option string) (uid : option Z).

Definition exec (op : StoreOp) (d : DB) : Settled ErrorKind unit * DB :=
  match op with
  | CreateMaterial c col n => createMaterial c col n d
  | AddSheets m n r => addSheets m n r d
  | DeleteSheet m i => deleteSheetAt m i d
  | SetSheetStatus m i s => setSheetStatus m i s d
  | SetRecutSheetStatus r i s => setRecutSheetStatus r i s d
  | AddRecutEntry m n w u => addRecut m n w u d
  end.

Definition run (ops : list StoreOp) (d : DB) : DB :=
  foldl (λ acc op, (exec op acc).2) d ops.

Definition empty_db : DB :=
  {| job_materials := ∅; recut_entries := ∅; next_id := 1 |}.

(** An untyped argument read as an integer, when it is one. *)
Definition as_int (v : jsval) : option Z :=
  match v with
  | JNum q => if (Z.pos (Qden (Qred q)) =? 1) then Some (Qnum (Qred q)) else None
  | _ => None
  end.

Definition as_text (v : jsval) : option string :=
  match v with
  | JStr s => Some s
  | _ => None
  end.

(** Modelled from the spec: the [storage] object of
    [server/storage.ts] as the handlers call it.  An id that is not an
    integer names no row; an index that is not an integer is outside
    every range; a status that is not a string is none of the three
    values; a count that is not an integer is not a positive count. *)
#[export] Instance spec_storage : IStorage DB ErrorKind := {|
  updateSheetStatus mid idx st d :=
    match as_int mid with
    | Some m => setSheetStatus m (default (-1) (as_int idx)) (default "" (as_text st)) d
    | None => (Rejected NotFound, d)
    end;
  updateRecutSheetStatus rid idx st d :=
    match as_int rid with
    | Some r => setRecutSheetStatus r (default (-1) (as_int idx)) (default "" (as_text st)) d
    | None => (Rejected NotFound, d)
    end;
  addSheetsToMaterial mid n isRecut d :=
    match as_int mid with
    | Some m => addSheets m (default 0 (as_int n)) (truthy isRecut) d
    | None => (Rejected NotFound, d)
    end;
  deleteSheet mid idx d :=
    match as_int mid with
    | Some m => deleteSheetAt m (default (-1) (as_int idx)) d
    | None => (Rejected NotFound, d)
    end;
  addRecutEntry mid n why uid d :=
    match as_int mid with
    | Some m => addRecut m (default 0 (as_int n)) (as_text why) (as_int uid) d
    | None => (Rejected NotFound, d)
    end;
  getRecutEntries mid d :=
    match as_int mid with
    | Some m => (Resolved (recutsOf m d), d)
    | None => (Resolved [], d)
    end;
  addMaterialToJob jobId color total d :=
    match as_int color with
    | Some c => createMaterial None c (default 0 (as_int total)) d
    | None => (Rejected InvalidArgument, d)
    end
|}.

(** The invariants of section 3 on one row and on the tables. *)
Definition sheets_consistent (m : JobMaterial) : Prop :=
  ∃ l, sheetStatuses m = Some l ∧ Z.of_nat (length l) = totalSheets m.

Definition count_consistent (m : JobMaterial) : Prop :=
  ∃ l, sheetStatuses m = Some l ∧ completedSheets m = count_cut l.

Definition recut_count_consistent (r : RecutEntry) : Prop :=
  ∃ l, recut_sheetStatuses r = Some l ∧ recut_completedSheets r = count_cut l.

Definition db_sheets_consistent (d : DB) : Prop :=
  ∀ k m, job_materials d !! k = Some m → sheets_consistent m.

Definition db_counts_consistent (d : DB) : Prop :=
  (∀ k m, job_materials d !! k = Some m → count_consistent m) ∧
  (∀ k r, recut_entries d !! k = Some r → recut_count_consistent r).

End SpecStorage.

(** ** A decimal reading of the two string conversions

    Enough of [parseInt] and of the string-to-number conversion to run
    the handlers on requests with decimal ids.  This is not the whole
    of either built-in: [parseInt10] reads an optional minus and
    decimal digits, without leading whitespace, plus sign, hex prefix
    or rounding to a double; [number10] reads unsigned digit strings
    only, no sign, fraction, exponent, whitespace or hex.  The handlers
    and every general statement about them take the built-ins as a
    parameter; these two only instantiate them in concrete runs. *)

Module Decimal.
Import JS.

Definition digit_of (a : Ascii.ascii) : option Z :=
  let n := Z.of_nat (Ascii.nat_of_ascii a) in
  if (48 <=? n) && (n <=? 57) then Some (n - 48) else None.

(** The value of the longest prefix of digits; [acc] is [None] until
    a digit has been read. *)
Fixpoint digits_prefix (s : string) (acc : option Z) : option Z :=
  match s with
  | String a rest =>
      match digit_of a with
      | Some dgt => digits_prefix rest (Some (10 * default 0 acc + dgt))
      | None => acc
      end
  | EmptyString => acc
  end.

Fixpoint all_digits (s : string) : bool :=
  match s with
  | String a rest => bool_decide (is_Some (digit_of a)) && all_digits rest
  | EmptyString => true
  end.

Definition parseInt10 (s : string) : option Z :=
  match s with
  | String "-"%char rest => Z.opp <$> digits_prefix rest None
  | _ => digits_prefix s None
  end.

Definition number10 (s : string) : option Q :=
  match s with
  | EmptyString => Some 0%Q
  | _ => if all_digits s then inject_Z <$> digits_prefix s None else None
  end.

#[export] Instance decimal_builtins : Builtins :=
  {| parseInt := parseInt10; StringToNumber := number10 |}.

End Decimal.

Import JS Schema Popup Server SpecStorage Decimal.

(** ** Concrete jobs, requests and servers used below *)

(** A material of six pending sheets and the popup showing it. *)
Definition six_pending : JobMaterial :=
  {| id := 5; cutlistId := Some 1; colorId := 2; totalSheets := 6;
     completedSheets := 0; sheetStatuses := Some (replicate 6 "pending") |}.

Definition job_of (m : JobMaterial) : JobWithMaterials :=
  {| cutlists := [{| materials := [m] |}] |}.

(** The same material once another viewer has set sheet 0 to "skip". *)
Definition six_first_skipped : JobMaterial :=
  {| id := 5; cutlistId := Some 1; colorId := 2; totalSheets := 6;
     completedSheets := 0;
     sheetStatuses := Some ("skip" :: replicate 5 "pending") |}.

(** A material whose first sheet the server holds as "cut". *)
Definition first_cut : JobMaterial :=
  {| id := 7; cutlistId := Some 1; colorId := 2; totalSheets := 2;
     completedSheets := 1; sheetStatuses := Some ["cut"; "pending"] |}.

(** One click on a sheet button followed by the success of its request. *)
Definition click_and_succeed (c k index : nat) (st : PopupState) : PopupState :=
  settle (nextMutation st) Success (clickSheetButton c k index st).

(** A count as the add-sheets and add-recut handlers may find it in the
    body: absent, or a number below 1. *)
Definition absent_or_below_one (v : jsval) : Prop :=
  v = JUndefined ∨ ∃ q, v = JNum q ∧ (q < 1)%Q.

Definition unauthorized : Response := json_message 401 "Authentication required".

Definition operator : User := {| user_id := 1; username := "operator"; role := "user" |}.

(** One material, id 5, six pending sheets. *)
Definition db_six : DB :=
  {| job_materials := {[5 := six_pending]}; recut_entries := ∅; next_id := 6 |}.

(** Three viewers connected, the second one gone again. *)
Definition three_viewers : ServerState DB :=
  on_close 2 (on_connection 3 (on_connection 2 (on_connection 1
    {| db := db_six; sockets := ∅; clients := ∅ |}))).

(** PUT /api/materials/<mid>/sheet-status with body {sheetIndex, status}. *)
Definition sheet_status_request (user : option User) (mid : string)
    (sheetIndex status : jsval) : Request :=
  {| session_user := user; req_user := None;
     params := {["id" := mid]};
     req_body := <["sheetIndex" := sheetIndex]> {["status" := status]} |}.

(** POST /api/materials/<mid>/sheets/<sheetIndex> with body {status}. *)
Definition post_sheet_request (user : option User) (mid sheetIndex : string)
    (status : jsval) : Request :=
  {| session_user := user; req_user := None;
     params := <["materialId" := mid]> {["sheetIndex" := sheetIndex]};
     req_body := {["status" := status]} |}.

(** POST /api/materials/<mid>/add-sheets and .../recuts with a body
    holding the given count under both names, when there is one. *)
Definition count_request (user : option User) (mid : string) (count : option jsval)
    : Request :=
  {| session_user := user; req_user := None;
     params := {["id" := mid]};
     req_body := match count with
                 | Some v => <["additionalSheets" := v]> {["quantity" := v]}
                 | None => ∅
                 end |}.


(** ** The popup under a sequence of events *)

Module PopupRun.

(** [setIsMinimized(!isMinimized)], the minimise button of the header. *)
Definition toggleMinimized (st : PopupState) : PopupState :=
  {| jobId := jobId st; job := job st; queryError := queryError st;
     isMinimized := negb (isMinimized st);
     optimisticSheetStatuses := optimisticSheetStatuses st;
     inFlight := inFlight st; currentMutation := currentMutation st;
     nextMutation := nextMutation st; apiCalls := apiCalls st;
     invalidated := invalidated st; toasts := toasts st |}.

(** The job query reports an [error]; the data it had stays. *)
Definition queryFailed (st : PopupState) : PopupState :=
  {| jobId := jobId st; job := job st; queryError := true;
     isMinimized := isMinimized st;
     optimisticSheetStatuses := optimisticSheetStatuses st;
     inFlight := inFlight st; currentMutation := currentMutation st;
     nextMutation := nextMutation st; apiCalls := apiCalls st;
     invalidated := invalidated st; toasts := toasts st |}.

(** What can happen to a mounted popup. *)
Inductive Event :=
| Click (c k index : nat)
| Answer (k : nat) (r : Reply)
| Refetch (j : JobWithMaterials)
| QueryError
| Minimize.

Definition step (e : Event) (st : PopupState) : PopupState :=
  match e with
  | Click c k index => clickSheetButton c k index st
  | Answer k r => settle k r st
  | Refetch j => refetched j st
  | QueryError => queryFailed st
  | Minimize => toggleMinimized st
  end.

Definition run_events (es : list Event) (st : PopupState) : PopupState :=
  foldl (λ acc e, step e acc) st es.

(** One of the three values a sheet status can take. *)
Definition is_sheet_status (s : string) : Prop :=
  s = "pending" ∨ s = "cut" ∨ s = "skip".

(** At most one request is unanswered, and it is the one the mutation
    observer reports on. *)
Definition single_flight (st : PopupState) : Prop :=
  inFlight st = [] ∨
  ∃ k ctx, inFlight st = [(k, ctx)] ∧ currentMutation st = Some k.

(** Every request sent was answered by a toast or by an invalidation,
    or is still in flight. *)
Definition requests_accounted (st : PopupState) : Prop :=
  length (apiCalls st)
  = (length (toasts st) + length (invalidated st) + length (inFlight st))%nat.

(** Only the three statuses are ever sent, written or kept for rollback. *)
Definition statuses_valid (st : PopupState) : Prop :=
  Forall (λ call, is_sheet_status (call_status call)) (apiCalls st) ∧
  (∀ mid index s, optimisticStatus st mid index = Some s → is_sheet_status s) ∧
  Forall (λ e, ∀ s, previousStatus e.2 = Some s → is_sheet_status s) (inFlight st).

End PopupRun.

Import PopupRun.

(** ** The recut list of the popup *)

Module Recuts.

(** Context of [updateRecutSheetMutation] and the request it sends,
    [PUT /api/recuts/${recutId}/sheet-status]. *)
Record RecutContext := {
  c_recutId : Z; c_recutSheetIndex : nat; recutPreviousStatus : option string
}.
Record RecutApiCall := {
  call_recutId : Z; call_recutSheetIndex : nat; call_recutStatus : string
}.

(** The state of one [RecutsList]: its props, the recut query and its
    own optimistic map and mutation. *)
Record RecutsState := {
  r_materialId : Z;
  r_jobId : Z;
  recuts : option (list RecutEntry);
  optimisticRecutStatuses : gmap Z (gmap nat string);
  r_inFlight : list (nat * RecutContext);
  r_currentMutation : option nat;
  r_nextMutation : nat;
  r_apiCalls : list RecutApiCall;
  r_invalidated : list QueryKey;
  r_toasts : list Toast
}.

(** [optimisticRecutStatuses[recutId]?.[sheetIndex]] *)
Definition optimisticRecutStatus (rs : RecutsState) (rid : Z) (index : nat)
    : option string :=
  optimisticRecutStatuses rs !! rid ≫= λ row, row !! index.

(** [updateRecutSheetMutation.isPending] *)
Definition recutIsPending (rs : RecutsState) : bool :=
  match r_currentMutation rs with
  | Some k => bool_decide (k ∈ (r_inFlight rs).*1)
  | None => false
  end.

(** [updateRecutSheetMutation.mutate]: [onMutate] writes the optimistic
    entry and keeps the previous one, then the request goes out. *)
Definition recutMutate (rid : Z) (index : nat) (status : string) (rs : RecutsState)
    : RecutsState :=
  {| r_materialId := r_materialId rs; r_jobId := r_jobId rs; recuts := recuts rs;
     optimisticRecutStatuses := write_cell rid index status (optimisticRecutStatuses rs);
     r_inFlight := r_inFlight rs ++
       [(r_nextMutation rs,
         {| c_recutId := rid; c_recutSheetIndex := index;
            recutPreviousStatus := optimisticRecutStatus rs rid index |})];
     r_currentMutation := Some (r_nextMutation rs);
     r_nextMutation := S (r_nextMutation rs);
     r_apiCalls := r_apiCalls rs ++
       [{| call_recutId := rid; call_recutSheetIndex := index;
           call_recutStatus := status |}];
     r_invalidated := r_invalidated rs; r_toasts := r_toasts rs |}.

(** [handleRecutSheetClick(recutId, sheetIndex, currentStatus)] *)
Definition handleRecutSheetClick (rid : Z) (index : nat) (currentStatus : string)
    (rs : RecutsState) : RecutsState :=
  let actualStatus :=
    match optimisticRecutStatus rs rid index with
    | Some s => s
    | None => currentStatus
    end in
  recutMutate rid index (nextRecutSheetStatus actualStatus) rs.

(** [recut.sheetStatuses?.[sheetIndex] || 'pending'] *)
Definition recutServerStatus (r : RecutEntry) (index : nat) : string :=
  or_else (recut_sheetStatuses r ≫= λ l, l !! index) "pending".

Definition recutDisplayedStatus (rs : RecutsState) (r : RecutEntry) (index : nat)
    : string :=
  match optimisticRecutStatus rs (recut_id r) index with
  | Some s => s
  | None => recutServerStatus r index
  end.

(** Button [index] of the recut drawn at position [k]: none while the
    query has no data or an empty list, none beyond [recut.quantity]. *)
Definition renderedRecutButton (rs : RecutsState) (k index : nat) : option RecutEntry :=
  l ← recuts rs;
  r ← l !! k;
  if bool_decide (Z.of_nat index < quantity r) then Some r else None.

Definition clickRecutButton (k index : nat) (rs : RecutsState) : RecutsState :=
  match renderedRecutButton rs k index with
  | Some r =>
      if recutIsPending rs then rs
      else handleRecutSheetClick (recut_id r) index (recutDisplayedStatus rs r index) rs
  | None => rs
  end.

(** The response to mutation [k]: [onSuccess] invalidates the recut
    query and, through [onRecutUpdate], the two job queries; [onError]
    writes [context.previousStatus || 'pending'] back and toasts. *)
Definition recutSettle (k : nat) (reply : Reply) (rs : RecutsState) : RecutsState :=
  match list_find (λ x, x.1 = k) (r_inFlight rs) with
  | Some (_, (_, ctx)) =>
      let pending := filter (λ x, x.1 ≠ k) (r_inFlight rs) in
      match reply with
      | Success =>
          {| r_materialId := r_materialId rs; r_jobId := r_jobId rs; recuts := recuts rs;
             optimisticRecutStatuses := optimisticRecutStatuses rs;
             r_inFlight := pending; r_currentMutation := r_currentMutation rs;
             r_nextMutation := r_nextMutation rs; r_apiCalls := r_apiCalls rs;
             r_invalidated := r_invalidated rs ++
               [QRecuts (r_materialId rs); QJob (r_jobId rs); QJobs];
             r_toasts := r_toasts rs |}
      | Failure message =>
          {| r_materialId := r_materialId rs; r_jobId := r_jobId rs; recuts := recuts rs;
             optimisticRecutStatuses :=
               write_cell (c_recutId ctx) (c_recutSheetIndex ctx)
                 (or_else (recutPreviousStatus ctx) "pending")
                 (optimisticRecutStatuses rs);
             r_inFlight := pending; r_currentMutation := r_currentMutation rs;
             r_nextMutation := r_nextMutation rs; r_apiCalls := r_apiCalls rs;
             r_invalidated := r_invalidated rs;
             r_toasts := r_toasts rs ++
               [{| title := "Error";
                   description := or_else message "Failed to update recut sheet status";
                   variant := "destructive" |}] |}
      end
  | None => rs
  end.

(** The recut query delivers a fresh list. *)
Definition recutsRefetched (l : list RecutEntry) (rs : RecutsState) : RecutsState :=
  {| r_materialId := r_materialId rs; r_jobId := r_jobId rs; recuts := Some l;
     optimisticRecutStatuses := optimisticRecutStatuses rs;
     r_inFlight := r_inFlight rs; r_currentMutation := r_currentMutation rs;
     r_nextMutation := r_nextMutation rs; r_apiCalls := r_apiCalls rs;
     r_invalidated := r_invalidated rs; r_toasts := r_toasts rs |}.

(** The list as first mounted, before the query has answered. *)
Definition recutsMounted (mid jid : Z) : RecutsState :=
  {| r_materialId := mid; r_jobId := jid; recuts := None;
     optimisticRecutStatuses := ∅; r_inFlight := []; r_currentMutation := None;
     r_nextMutation := 0%nat; r_apiCalls := []; r_invalidated := []; r_toasts := [] |}.

Inductive RecutEvent :=
| RecutClick (k index : nat)
| RecutAnswer (k : nat) (reply : Reply)
| RecutRefetch (l : list RecutEntry).

Definition recutStep (e : RecutEvent) (rs : RecutsState) : RecutsState :=
  match e with
  | RecutClick k index => clickRecutButton k index rs
  | RecutAnswer k reply => recutSettle k reply rs
  | RecutRefetch l => recutsRefetched l rs
  end.

Definition recutRun (es : list RecutEvent) (rs : RecutsState) : RecutsState :=
  foldl (λ acc e, recutStep e acc) rs es.

(** A recut entry read as a material of [quantity] sheets, the list as
    one cutlist, and the events of the list as events of the sheet grid. *)
Definition as_material (r : RecutEntry) : JobMaterial :=
  {| id := recut_id r; cutlistId := None; colorId := 0; totalSheets := quantity r;
     completedSheets := recut_completedSheets r;
     sheetStatuses := recut_sheetStatuses r |}.

Definition as_job (l : list RecutEntry) : JobWithMaterials :=
  {| cutlists := [{| materials := as_material <$> l |}] |}.

Definition as_event (e : RecutEvent) : Event :=
  match e with
  | RecutClick k index => Click 0 k index
  | RecutAnswer k reply => Answer k reply
  | RecutRefetch l => Refetch (as_job l)
  end.

Definition as_context (ctx : RecutContext) : SheetContext :=
  {| c_materialId := c_recutId ctx; c_sheetIndex := c_recutSheetIndex ctx;
     previousStatus := recutPreviousStatus ctx |}.

Definition as_call (call : RecutApiCall) : ApiCall :=
  {| call_materialId := call_recutId call; call_sheetIndex := call_recutSheetIndex call;
     call_status := call_recutStatus call |}.

(** The recut list and a sheet grid hold the same thing. *)
Definition mirrors (rs : RecutsState) (st : PopupState) : Prop :=
  job st = as_job <$> recuts rs ∧
  queryError st = false ∧ isMinimized st = false ∧
  optimisticSheetStatuses st = optimisticRecutStatuses rs ∧
  inFlight st = prod_map Datatypes.id as_context <$> r_inFlight rs ∧
  currentMutation st = r_currentMutation rs ∧
  nextMutation st = r_nextMutation rs ∧
  apiCalls st = as_call <$> r_apiCalls rs ∧
  length (toasts st) = length (r_toasts rs) ∧
  (3 * length (invalidated st))%nat = length (r_invalidated rs).

End Recuts.

(** ** Role checks, user deletion and a run of broadcasts *)

Module Access.

Section Access.
Context {DB : Type}.

Definition forbidden (message : string) : Response := json_message 403 message.

(** [requireAdmin] *)
Definition requireAdmin (next : @Handler DB) : @Handler DB := λ req st,
  match session_user req with
  | None => (forbidden "Admin access required", st)
  | Some u =>
      if String.eqb (role u) "user" then (forbidden "Admin access required", st)
      else next req st
  end.

(** [requireSuperAdmin] *)
Definition requireSuperAdmin (next : @Handler DB) : @Handler DB := λ req st,
  match session_user req with
  | None => (forbidden "Super admin access required", st)
  | Some u =>
      if String.eqb (role u) "super_admin" then next req st
      else (forbidden "Super admin access required", st)
  end.

(** The messages of a list broadcast one after the other. *)
Definition broadcast_all (messages : list Message) (st : ServerState DB)
    : ServerState DB :=
  foldl (λ acc message, broadcastToClients message acc) st messages.

End Access.

(** [storage.deleteUser], the one storage method the user-deletion
    handler calls. *)
Class IUserDeletion (DB E : Type) := {
  deleteUser : jsval → DB → Settled E unit * DB
}.

Section DeleteUser.
Context `{Builtins} {DB E : Type} `{!IUserDeletion DB E}.

(** [id === req.session.user!.id] for the result of [parseInt]. *)
Definition is_user_id (v : jsval) (uid : Z) : bool :=
  match v with
  | JNum q => Qeq_bool q (inject_Z uid)
  | _ => false
  end.

(** DELETE /api/users/:id.  Reading [id] of an absent session user
    throws inside [try]. *)
Definition delete_user_handler : @Handler DB := λ req st,
  let id := param_int req "id" in
  match session_user req with
  | None => (json_message 500 "Failed to delete user", st)
  | Some u =>
      if is_user_id id (user_id u) then
        (json_message 400 "Cannot delete your own account", st)
      else
        try_storage (deleteUser id) "Failed to delete user" st
          (λ _ st', (json_message 200 "User deleted successfully", st'))
  end.

Definition delete_users : @Handler DB := requireSuperAdmin delete_user_handler.

End DeleteUser.

End Access.

(** ** Login, session refresh and first-time setup *)

Module Auth.

(** A row of [users]; [createdAt] is left out. *)
Record UserRow := {
  u_id : Z;
  u_username : string;
  u_password : string;
  u_email : option string;
  u_role : string
}.

(** What [storage.createUser] is given by the setup handler. *)
Record NewUser := { n_username : string; n_password : string; n_role : string }.

(** The user-table methods of [storage] these handlers call. *)
Class IUserStorage (DB E : Type) := {
  getUser : Z → DB → Settled E (option UserRow) * DB;
  getUserByUsername : string → DB → Settled E (option UserRow) * DB;
  getAllUsers : DB → Settled E (list UserRow) * DB;
  createUser : NewUser → DB → Settled E UserRow * DB
}.

(** [String.prototype.toLowerCase] and [bcrypt.compare]. *)
Class AuthBuiltins := {
  toLowerCase : string → string;
  bcrypt_compare : string → string → bool
}.

(** [loginSchema]: both fields strings of at least one character. *)
Record Login := { login_username : string; login_password : string }.

Definition loginSchema_parse (body : gmap string jsval) : option Login :=
  match body !! "username", body !! "password" with
  | Some (JStr u), Some (JStr p) =>
      if negb (String.eqb u "") && negb (String.eqb p "")
      then Some {| login_username := u; login_password := p |}
      else None
  | _, _ => None
  end.

Inductive AuthBody :=
| Message (message : string)
| PublicUser (id : Z) (username role : string)
| Required (required : bool).

Record AuthResponse := { a_status : Z; a_body : AuthBody }.

Record AuthRequest := {
  session : option UserRow;
  a_req_body : gmap string jsval
}.

(** What a handler leaves behind: the response when it sends one, the
    session user and the database. *)
Record AuthResult (DB : Type) := {
  response : option AuthResponse;
  session_after : option UserRow;
  db_after : DB
}.
Global Arguments response {DB} _.
Global Arguments session_after {DB} _.
Global Arguments db_after {DB} _.

Definition public (u : UserRow) : AuthBody :=
  PublicUser (u_id u) (u_username u) (u_role u).

Section Handlers.
Context `{AuthBuiltins} {DB E : Type} `{!IUserStorage DB E}.

Definition answer (code : Z) (b : AuthBody) (s : option UserRow) (d : DB)
    : AuthResult DB :=
  {| response := Some {| a_status := code; a_body := b |};
     session_after := s; db_after := d |}.

(** POST /api/login; [save_ok] tells whether [req.session.save]
    succeeds. *)
Definition login_handler (save_ok : bool) (req : AuthRequest) (d : DB) : AuthResult DB :=
  match loginSchema_parse (a_req_body req) with
  | None => answer 500 (Message "Login failed") (session req) d
  | Some l =>
      match getUserByUsername (toLowerCase (login_username l)) d with
      | (Rejected _, d1) => answer 500 (Message "Login failed") (session req) d1
      | (Resolved None, d1) =>
          answer 401 (Message "Invalid credentials") (session req) d1
      | (Resolved (Some user), d1) =>
          if bcrypt_compare (login_password l) (u_password user) then
            if save_ok then answer 200 (public user) (Some user) d1
            else answer 500 (Message "Login failed") (Some user) d1
          else answer 401 (Message "Invalid credentials") (session req) d1
      end
  end.

(** POST /api/logout; [destroy_ok] tells whether [req.session.destroy]
    succeeds. *)
Definition logout_handler (destroy_ok : bool) (req : AuthRequest) (d : DB)
    : AuthResult DB :=
  if destroy_ok then answer 200 (Message "Logged out successfully") None d
  else answer 500 (Message "Could not log out") (session req) d.

(** GET /api/me.  The handler has no [try]: when [storage.getUser]
    rejects it sends nothing. *)
Definition me_handler (req : AuthRequest) (d : DB) : AuthResult DB :=
  match session req with
  | Some u =>
      match getUser (u_id u) d with
      | (Resolved (Some freshUser), d1) => answer 200 (public freshUser) (Some freshUser) d1
      | (Resolved None, d1) => answer 401 (Message "User not found") (session req) d1
      | (Rejected _, d1) =>
          {| response := None; session_after := session req; db_after := d1 |}
      end
  | None => answer 401 (Message "Not authenticated") None d
  end.

(** POST /api/setup; [hashed] is what [bcrypt.hash(password, 10)]
    resolves to.  [bcrypt.hash] rejects data that is not a string, and
    [toLowerCase] is not a method of a value that is not one: both
    throw inside [try]. *)
Definition setup_handler (hashed : string) (req : AuthRequest) (d : DB) : AuthResult DB :=
  match getAllUsers d with
  | (Rejected _, d1) => answer 500 (Message "Setup failed") (session req) d1
  | (Resolved existingUsers, d1) =>
      if (0 <? length existingUsers)%nat then
        answer 400 (Message "Setup already completed") (session req) d1
      else
        let username := default JUndefined (a_req_body req !! "username") in
        let password := default JUndefined (a_req_body req !! "password") in
        if negb (truthy username) || negb (truthy password) then
          answer 400 (Message "Username and password required") (session req) d1
        else
          match password, username with
          | JStr _, JStr u =>
              match createUser {| n_username := toLowerCase u; n_password := hashed;
                                  n_role := "super_admin" |} d1 with
              | (Resolved _, d2) =>
                  answer 200 (Message "Initial admin user created successfully")
                    (session req) d2
              | (Rejected _, d2) => answer 500 (Message "Setup failed") (session req) d2
              end
          | _, _ => answer 500 (Message "Setup failed") (session req) d1
          end
  end.

(** GET /api/setup/required *)
Definition setup_required_handler (req : AuthRequest) (d : DB) : AuthResult DB :=
  match getAllUsers d with
  | (Resolved existingUsers, d1) =>
      answer 200 (Required (length existingUsers =? 0)%nat) (session req) d1
  | (Rejected _, d1) =>
      answer 500 (Message "Failed to check setup status") (session req) d1
  end.

End Handlers.

End Auth.

(** ** Updating a user: PUT /api/users/:id *)

Module Users.
Import Auth.

(** The [updateData] object handed to [storage.updateUser]: a key is
    there only when the handler has set it. *)
Record UpdateData := {
  up_username : option string;
  up_email : option jsval;
  up_password : option string;
  up_role : option string
}.

(** [storage.getUserByUsername] and [storage.updateUser], and the
    [message] of what a storage call rejects with. *)
Class IUserUpdate (DB E : Type) := {
  findByUsername : string → DB → Settled E (option UserRow) * DB;
  updateUser : jsval → UpdateData → DB → Settled E UserRow * DB;
  error_message : E → option string
}.

Inductive UserBody :=
| UserMessage (message : string)
| UserJson (id : Z) (username : string) (email : option string) (role : string).

Record UserResponse := { u_status : Z; u_body : UserBody }.

(** [haystack.includes(needle)] *)
Definition includes (haystack needle : string) : bool :=
  match String.index 0 needle haystack with
  | Some _ => true
  | None => false
  end.

(** [['user', 'admin', 'super_admin'].includes(role)] *)
Definition known_role (role : jsval) : option string :=
  match role with
  | JStr r =>
      if String.eqb r "user" || String.eqb r "admin" || String.eqb r "super_admin"
      then Some r else None
  | _ => None
  end.

Section UpdateUser.
Context `{Builtins} `{AuthBuiltins} {DB E : Type} `{!IUserUpdate DB E}.

(** The [catch] branch: a message that mentions a duplicate key or a
    unique constraint is answered 400, every other error 500.  [None]
    stands for an error thrown by [toLowerCase] or [bcrypt.hash] on a
    value that is not a string, whose message mentions neither. *)
Definition update_failed (e : option E) : UserResponse :=
  let taken :=
    match e ≫= error_message with
    | Some m => includes m "duplicate key" || includes m "unique"
    | None => false
    end in
  if taken then {| u_status := 400; u_body := UserMessage "Username already exists" |}
  else {| u_status := 500; u_body := UserMessage "Failed to update user" |}.

(** The last steps: [email], [password], [role], then
    [storage.updateUser] and the response. *)
Definition update_rest (hashed : string) (userId email password : jsval)
    (role : option string) (username : option string) (d : DB) : UserResponse * DB :=
  let up_email :=
    if is_undefined email then None
    else Some (if truthy email then email else JNull) in
  let finish (up_password : option string) :=
    match updateUser userId
            {| up_username := username; up_email := up_email;
               up_password := up_password; up_role := role |} d with
    | (Resolved user, d1) =>
        ({| u_status := 200;
            u_body := UserJson (u_id user) (u_username user) (u_email user)
                        (u_role user) |}, d1)
    | (Rejected e, d1) => (update_failed (Some e), d1)
    end in
  if truthy password then
    match password with
    | JStr _ => finish (Some hashed)
    | _ => (update_failed None, d)
    end
  else finish None.

(** The handler of PUT /api/users/:id; [hashed] is what
    [bcrypt.hash(password, 10)] resolves to. *)
Definition update_user_handler (hashed : string) (id_param : string)
    (body : gmap string jsval) (d : DB) : UserResponse * DB :=
  let userId := num_of (parseInt id_param) in
  let field name := default JUndefined (body !! name) in
  let username := field "username" in
  let email := field "email" in
  let password := field "password" in
  let role := field "role" in
  if truthy role && negb (bool_decide (is_Some (known_role role))) then
    ({| u_status := 400; u_body := UserMessage "Invalid role specified" |}, d)
  else
    let role' := if truthy role then known_role role else None in
    if truthy username then
      match username with
      | JStr name =>
          let lowerUsername := toLowerCase name in
          match findByUsername lowerUsername d with
          | (Rejected e, d1) => (update_failed (Some e), d1)
          | (Resolved existingUser, d1) =>
              match existingUser with
              | Some row =>
                  if negb (Access.is_user_id userId (u_id row)) then
                    ({| u_status := 400;
                        u_body := UserMessage "Username already exists" |}, d1)
                  else update_rest hashed userId email password role'
                         (Some lowerUsername) d1
              | None =>
                  update_rest hashed userId email password role' (Some lowerUsername) d1
              end
          end
      | _ => (update_failed None, d)
      end
    else update_rest hashed userId email password role' None d.

End UpdateUser.

End Users.

(** ** Job creation: [createJobSchema] and POST /api/jobs *)

Module Jobs.

(** A parsed JSON body. *)
#[warnings="-register-all"]
Inductive json : Type :=
| JsNull
| JsBool (b : bool)
| JsNum (q : Q)
| JsStr (s : string)
| JsArr (items : list json)
| JsObj (fields : list (string * json)).

(** [obj[name]] after [JSON.parse]: of a key written twice the last
    binding is kept. *)
Definition get_field (name : string) (fields : list (string * json)) : option json :=
  foldl (λ found kv, if String.eqb kv.1 name then Some kv.2 else found) None fields.

(** What [createJobSchema] yields: the three known keys, the others
    stripped. *)
Record MaterialInput := { in_colorId : Q; in_totalSheets : Q }.
Record CreateJob := {
  in_customerName : string;
  in_jobName : string;
  in_materials : list MaterialInput
}.

(** [z.object({ colorId: z.number().min(1), totalSheets: z.number().min(1) })] *)
Definition parse_material (j : json) : option MaterialInput :=
  match j with
  | JsObj fields =>
      match get_field "colorId" fields, get_field "totalSheets" fields with
      | Some (JsNum c), Some (JsNum t) =>
          if Qle_bool 1 c && Qle_bool 1 t
          then Some {| in_colorId := c; in_totalSheets := t |}
          else None
      | _, _ => None
      end
  | _ => None
  end.

(** [createJobSchema.parse]; [None] stands for the ZodError thrown. *)
Definition createJobSchema_parse (body : json) : option CreateJob :=
  match body with
  | JsObj fields =>
      match get_field "customerName" fields, get_field "jobName" fields,
            get_field "materials" fields with
      | Some (JsStr customer), Some (JsStr name), Some (JsArr items) =>
          if negb (String.eqb customer "") && negb (String.eqb name "") then
            match mapM parse_material items with
            | Some [] => None
            | Some ms => Some {| in_customerName := customer; in_jobName := name;
                                 in_materials := ms |}
            | None => None
            end
          else None
      | _, _, _ => None
      end
  | _ => None
  end.

(** A job as a client writes it into the body. *)
Definition encode_material (m : MaterialInput) : json :=
  JsObj [("colorId", JsNum (in_colorId m)); ("totalSheets", JsNum (in_totalSheets m))].

Definition encode_job (j : CreateJob) : json :=
  JsObj [("customerName", JsStr (in_customerName j)); ("jobName", JsStr (in_jobName j));
         ("materials", JsArr (encode_material <$> in_materials j))].

(** What the schema asks of a job. *)
Definition material_ok (m : MaterialInput) : Prop :=
  (1 <= in_colorId m)%Q ∧ (1 <= in_totalSheets m)%Q.

Definition job_ok (j : CreateJob) : Prop :=
  in_customerName j ≠ "" ∧ in_jobName j ≠ "" ∧ in_materials j ≠ [] ∧
  Forall material_ok (in_materials j).

(** [storage.createJob], resolving to a job object of type [J]. *)
Class IJobStorage (DB E J : Type) := {
  createJob : CreateJob → DB → Settled E J * DB
}.

Record JobRequest := { jr_session_user : option User; jr_body : json }.
Record JobResponse (J : Type) := { jr_status : Z; jr_answer : string + J }.
Global Arguments jr_status {J} _.
Global Arguments jr_answer {J} _.

Section PostJobs.
Context {DB E J : Type} `{!IJobStorage DB E J}.
(** The fields of a job object as [JSON.stringify] writes them. *)
Variable job_fields : J → list (string * jsval).

(** The handler of POST /api/jobs. *)
Definition create_job_handler (req : JobRequest) (st : ServerState DB)
    : JobResponse J * ServerState DB :=
  match createJobSchema_parse (jr_body req) with
  | None => ({| jr_status := 400; jr_answer := inl "Invalid job data" |}, st)
  | Some jobData =>
      match createJob jobData (db st) with
      | (Resolved job, d) =>
          ({| jr_status := 200; jr_answer := inr job |},
           broadcastToClients
             {| msg_type := "job_created"; msg_data := job_fields job |}
             (with_db st d))
      | (Rejected _, d) =>
          ({| jr_status := 400; jr_answer := inl "Invalid job data" |}, with_db st d)
      end
  end.

(** POST /api/jobs behind [requireAuth]. *)
Definition post_jobs (req : JobRequest) (st : ServerState DB)
    : JobResponse J * ServerState DB :=
  match jr_session_user req with
  | None => ({| jr_status := 401; jr_answer := inl "Authentication required" |}, st)
  | Some _ => create_job_handler req st
  end.

End PostJobs.

End Jobs.

(** ** The category filter of the supplies page *)

Module Supplies.

Definition categories : list string :=
  ["1-Sheet Materials"; "2-Edgebandings"; "3-Hardwood Materials";
   "4-Drawer Box Materials"; "5-Drawer Glides"; "6-Hinges / Plates / Handles";
   "7-Accessories / Inserts"; "8-Other Inventory"].

(** [toggleCategory(category)] on the previous [selectedCategories]. *)
Definition toggleCategory (category : string) (prev : list string) : list string :=
  if bool_decide (category ∈ prev)
  then filter (λ c, c ≠ category) prev
  else prev ++ [category].

(** [toggleAllCategories()] *)
Definition toggleAllCategories (selectedCategories : list string) : list string :=
  if (length selectedCategories =? length categories)%nat then [] else categories.

(** The [checked] of the "All" box. *)
Definition allChecked (selectedCategories : list string) : bool :=
  (length selectedCategories =? length categories)%nat.

(** A click on the box of the category at position [i], or on "All". *)
Inductive FilterEvent := ToggleOne (i : nat) | ToggleAll.

Definition filterStep (e : FilterEvent) (selected : list string) : list string :=
  match e with
  | ToggleOne i =>
      match categories !! i with
      | Some category => toggleCategory category selected
      | None => selected
      end
  | ToggleAll => toggleAllCategories selected
  end.

(** The selection after the clicks [es], from the initial
    [useState(categories)]. *)
Definition selectionAfter (es : list FilterEvent) : list string :=
  foldl (λ acc e, filterStep e acc) categories es.

End Supplies.

(** ** Small stores and built-ins to run the user handlers on *)

Module Sample.
Import Access Auth.

(** User ids kept as a set; deleting removes the id. *)
#[export] Instance ids_storage : IUserDeletion (gset Z) unit :=
  {| deleteUser id ids :=
       match as_int id with
       | Some z => (Resolved (), ids ∖ {[z]})
       | None => (Resolved (), ids)
       end |}.

Definition lower_ascii (a : ascii) : ascii :=
  let n := nat_of_ascii a in
  if ((65 <=? n) && (n <=? 90))%nat then ascii_of_nat (n + 32) else a.

Fixpoint lower (s : string) : string :=
  match s with
  | String a rest => String (lower_ascii a) (lower rest)
  | EmptyString => EmptyString
  end.

(** Lower-casing of the ASCII letters only, which is [toLowerCase] on
    ASCII names and not beyond; a password matches the hash that is the
    password behind a fixed prefix.  Used in concrete runs only. *)
#[export] Instance sample_builtins : AuthBuiltins :=
  {| toLowerCase := lower;
     bcrypt_compare p h := String.eqb (String.append "hash:" p) h |}.

(** The user table as a list of rows. *)
#[export] Instance list_storage : IUserStorage (list UserRow) unit :=
  {| getUser id rows := (Resolved (List.find (λ r, u_id r =? id) rows), rows);
     getUserByUsername name rows :=
       (Resolved (List.find (λ r, String.eqb (u_username r) name) rows), rows);
     getAllUsers rows := (Resolved rows, rows);
     createUser n rows :=
       let row := {| u_id := Z.of_nat (S (length rows)); u_username := n_username n;
                     u_password := n_password n; u_email := None;
                     u_role := n_role n |} in
       (Resolved row, rows ++ [row]) |}.

Definition alice : UserRow :=
  {| u_id := 1; u_username := "alice"; u_password := "hash:secret";
     u_email := None; u_role := "admin" |}.

Definition login_request (username password : string) : AuthRequest :=
  {| session := None;
     a_req_body := <["username" := JStr username]> {["password" := JStr password]} |}.

(** A super admin with id 1 asking to delete user [target]. *)
Definition delete_request (target : string) : Request :=
  {| session_user := Some {| user_id := 1; username := "root"; role := "super_admin" |};
     req_user := None; params := {["id" := target]}; req_body := ∅ |}.

(** Jobs kept as the list of what was created. *)
#[export] Instance created_jobs : Jobs.IJobStorage (list Jobs.CreateJob) unit Jobs.CreateJob :=
  {| Jobs.createJob jobData created := (Resolved jobData, created ++ [jobData]) |}.

Definition kitchen : Jobs.CreateJob :=
  {| Jobs.in_customerName := "Smith"; Jobs.in_jobName := "Kitchen";
     Jobs.in_materials := [{| Jobs.in_colorId := 2; Jobs.in_totalSheets := 3 # 2 |}] |}.

(** Two recut entries of a material, of two and three sheets. *)
Definition two_recuts : list RecutEntry :=
  [{| recut_id := 11; materialId := 5; quantity := 2; reason := None;
      recut_sheetStatuses := Some ["pending"; "pending"];
      recut_completedSheets := 0; userId := None |};
   {| recut_id := 12; materialId := 5; quantity := 3; reason := Some "chipped";
      recut_sheetStatuses := Some ["cut"; "pending"; "pending"];
      recut_completedSheets := 1; userId := None |}].

(** The user table as a list again, for the update handler; a row is
    replaced by the fields that are set. *)
#[export] Instance list_update : Users.IUserUpdate (list UserRow) string :=
  {| Users.findByUsername name rows :=
       (Resolved (List.find (λ r, String.eqb (u_username r) name) rows), rows);
     Users.updateUser id data rows :=
       match List.find (λ r, Access.is_user_id id (u_id r)) rows with
       | Some r =>
           let r' := {| u_id := u_id r;
                        u_username := default (u_username r) (Users.up_username data);
                        u_password := default (u_password r) (Users.up_password data);
                        u_email := u_email r;
                        u_role := default (u_role r) (Users.up_role data) |} in
           (Resolved r',
            (λ x, if Access.is_user_id id (u_id x) then r' else x) <$> rows)
       | None => (Rejected "no such user", rows)
       end;
     Users.error_message e := Some e |}.

Definition bob : UserRow :=
  {| u_id := 2; u_username := "bob"; u_password := "hash:hunter2";
     u_email := None; u_role := "user" |}.

Definition no_sockets (ids : gset Z) : ServerState (gset Z) :=
  {| db := ids; sockets := ∅; clients := ∅ |}.

End Sample.

Import Sample.

(** ** The popup: cycle, clicks, success and failure *)

Section PopupFacts.
Implicit Types (st : PopupState) (m : JobMaterial).

Lemma write_cell_lookup mid index s (prev : gmap Z (gmap nat string)) :
  write_cell mid index s prev !! mid ≫= (λ row, row !! index) = Some s.
Proof.
  unfold write_cell. rewrite lookup_insert_eq. simpl. apply lookup_insert_eq.
Qed.

Lemma write_cell_other mid index s mid' index' (prev : gmap Z (gmap nat string)) :
  (mid', index') ≠ (mid, index) →
  write_cell mid index s prev !! mid' ≫= (λ row, row !! index')
  = prev !! mid' ≫= (λ row, row !! index').
Proof.
  intros Hne. unfold write_cell.
  destruct (decide (mid = mid')) as [->|Hm].
  - rewrite lookup_insert_eq. simpl.
    rewrite lookup_insert_ne by congruence.
    destruct (prev !! mid'); simpl; [done | apply lookup_empty].
  - by rewrite lookup_insert_ne.
Qed.

Lemma handleSheetClick_status mid index current st :
  optimisticStatus (handleSheetClick mid index current st) mid index
  = Some (nextSheetStatus (default current (optimisticStatus st mid index))).
Proof.
  unfold handleSheetClick, mutate, onMutate, optimisticStatus. simpl.
  rewrite write_cell_lookup. by destruct (_ ≫= _).
Qed.

Lemma handleSheetClick_calls mid index current st :
  apiCalls (handleSheetClick mid index current st)
  = apiCalls st ++
    [{| call_materialId := mid; call_sheetIndex := index;
        call_status := nextSheetStatus (default current (optimisticStatus st mid index)) |}].
Proof.
  unfold handleSheetClick, mutate, onMutate. simpl.
  by destruct (optimisticStatus st mid index).
Qed.

Lemma handleSheetClick_pending mid index current st :
  isPending (handleSheetClick mid index current st) = true.
Proof.
  unfold handleSheetClick, mutate, onMutate, isPending. simpl.
  apply bool_decide_eq_true. rewrite fmap_app. set_solver.
Qed.

Lemma displayed_default st m index :
  default (displayedStatus st m index) (optimisticStatus st (id m) index)
  = displayedStatus st m index.
Proof. unfold displayedStatus. by destruct (optimisticStatus _ _ _). Qed.

Lemma click_enabled st c k index m :
renderedButton st c k index = Some m →
isPending st = false →
clickSheetButton c k index st
= handleSheetClick (id m) index (displayedStatus st m index) st.
Proof. intros Hb Hp. unfold clickSheetButton. by rewrite Hb, Hp. Qed.

Lemma click_disabled st c k index :
isPending st = true → clickSheetButton c k index st = st.
Proof.
intros Hp. unfold clickSheetButton. rewrite Hp.
by destruct (renderedButton st c k index).
Qed.

Lemma settle_success_optimistic k st :
  optimisticSheetStatuses (settle k Success st) = optimisticSheetStatuses st.
Proof.
  unfold settle. by destruct (list_find _ _) as [[? [? ?]]|].
Qed.

Lemma displayed_of_optimistic st m index s :
optimisticStatus st (id m) index = Some s → displayedStatus st m index = s.
Proof. intros Ho. unfold displayedStatus. by rewrite Ho. Qed.

Lemma settle_own_request mid index current r st :
let st1 := handleSheetClick mid index current st in
∃ ctx, settle (nextMutation st) r st1
       = match r with
         | Success => onSuccess (remove_inflight (nextMutation st) st1)
         | Failure msg => onError msg ctx (remove_inflight (nextMutation st) st1)
         end.
Proof.
intros st1. unfold settle.
destruct (list_find (λ e, e.1 = nextMutation st) (inFlight st1))
  as [[j [k' ctx]]|] eqn:Hf; [by exists ctx |].
apply list_find_None in Hf. unfold st1, handleSheetClick, mutate, onMutate in Hf.
simpl in Hf. rewrite Forall_app, Forall_singleton in Hf.
destruct Hf as [_ Hf]. by destruct Hf.
Qed.

Lemma remove_inflight_not_pending k st :
currentMutation st = Some k → isPending (remove_inflight k st) = false.
Proof.
intros Hk. unfold isPending, remove_inflight. simpl. rewrite Hk.
apply bool_decide_eq_false. intros Hin.
apply list_elem_of_fmap in Hin as ([k' ctx] & -> & Hin).
apply list_elem_of_filter in Hin as [Hne _]. by apply Hne.
Qed.

(** A click on an enabled button whose request then succeeds: one more
    request, the button enabled again, the cell one step further. *)
Lemma click_and_succeed_spec st c k index m :
renderedButton st c k index = Some m →
isPending st = false →
let next := nextSheetStatus (displayedStatus st m index) in
let st' := click_and_succeed c k index st in
renderedButton st' c k index = Some m ∧
isPending st' = false ∧
displayedStatus st' m index = next ∧
apiCalls st' = apiCalls st ++
  [{| call_materialId := id m; call_sheetIndex := index; call_status := next |}].
Proof.
intros Hb Hp next st'. unfold st', click_and_succeed.
rewrite (click_enabled st c k index m Hb Hp).
destruct (settle_own_request (id m) index (displayedStatus st m index) Success st)
  as [_ ->].
pose proof (handleSheetClick_status (id m) index (displayedStatus st m index) st) as Ho.
pose proof (handleSheetClick_calls (id m) index (displayedStatus st m index) st) as Hc.
rewrite displayed_default in Ho, Hc.
repeat split.
- exact Hb.
- exact (remove_inflight_not_pending (nextMutation st)
           (handleSheetClick (id m) index (displayedStatus st m index) st) eq_refl).
- apply displayed_of_optimistic. exact Ho.
- exact Hc.
Qed.

(** [n] such rounds on one cell send [n] requests, each with the
    successor of the status shown before it. *)
Lemma rounds_send_one_request_each n st c k index m :
renderedButton st c k index = Some m →
isPending st = false →
let st' := Nat.iter n (click_and_succeed c k index) st in
renderedButton st' c k index = Some m ∧
isPending st' = false ∧
displayedStatus st' m index = Nat.iter n nextSheetStatus (displayedStatus st m index) ∧
apiCalls st' = apiCalls st ++
  ((λ j, {| call_materialId := id m; call_sheetIndex := index;
            call_status := Nat.iter (S j) nextSheetStatus (displayedStatus st m index) |})
   <$> seq 0 n).
Proof.
intros Hb Hp. cbn zeta. induction n as [|n (IHb & IHp & IHd & IHc)].
- simpl. by rewrite app_nil_r.
- rewrite !Nat.iter_succ.
  destruct (click_and_succeed_spec _ c k index m IHb IHp) as (Hb' & Hp' & Hd' & Hc').
  repeat split; [done | done | |].
  + rewrite Hd'. by rewrite IHd.
  + rewrite Hc', IHc, IHd, seq_S, fmap_app, <- app_assoc.
    by rewrite <- Nat.iter_succ.
Qed.

(** A click on an enabled button whose request then fails, with no
    other request in flight: the cell shows the optimistic entry it had
    before the click, or "pending" when it had none, whatever the
    server holds for it; one toast is added. *)
Lemma failed_click_rolls_back_to_entry_or_pending st c k index m msg :
renderedButton st c k index = Some m →
inFlight st = [] →
let st' := settle (nextMutation st) (Failure msg) (clickSheetButton c k index st) in
displayedStatus st' m index = or_else (optimisticStatus st (id m) index) "pending" ∧
length (toasts st') = S (length (toasts st)).
Proof.
intros Hb Hi st'.
assert (isPending st = false) as Hp.
{ unfold isPending. rewrite Hi. by destruct (currentMutation st). }
unfold st'. rewrite (click_enabled st c k index m Hb Hp).
unfold settle, handleSheetClick, mutate, onMutate. simpl. rewrite Hi. simpl.
rewrite decide_True by done. simpl. split.
- apply displayed_of_optimistic. unfold optimisticStatus. simpl.
  apply write_cell_lookup.
- rewrite length_app. simpl. lia.
Qed.

End PopupFacts.

(** C8: from "pending" the click cycle goes to "cut", then "skip", then
    back to "pending", so three applications return "pending"; the copy
    of the cycle used for recut sheets does the same. *)
Theorem cycle_three_times_from_pending :
  nextSheetStatus "pending" = "cut" ∧
  nextSheetStatus "cut" = "skip" ∧
  nextSheetStatus "skip" = "pending" ∧
  Nat.iter 3 nextSheetStatus "pending" = "pending" ∧
  nextRecutSheetStatus "pending" = "cut" ∧
  nextRecutSheetStatus "cut" = "skip" ∧
  nextRecutSheetStatus "skip" = "pending" ∧
  Nat.iter 3 nextRecutSheetStatus "pending" = "pending".
Proof. repeat split; reflexivity. Qed.

(** C7, as amended: a click on a sheet button while no status request
    is in flight takes the displayed status (the optimistic entry when
    there is one, else the server's), writes its successor as the
    optimistic entry and sends one request of its own with it; a click
    while a request is in flight meets a disabled button and changes
    nothing. *)
Theorem click_sends_one_request_unless_pending st c k index m :
  renderedButton st c k index = Some m →
  (isPending st = false →
     let next := nextSheetStatus (displayedStatus st m index) in
     apiCalls (clickSheetButton c k index st)
       = apiCalls st ++ [{| call_materialId := id m; call_sheetIndex := index;
                            call_status := next |}] ∧
     optimisticStatus (clickSheetButton c k index st) (id m) index = Some next ∧
     isPending (clickSheetButton c k index st) = true) ∧
  (isPending st = true → clickSheetButton c k index st = st).
Proof.
  intros Hb. split; intros Hp.
  - rewrite (click_enabled st c k index m Hb Hp). cbn zeta.
    rewrite handleSheetClick_calls, handleSheetClick_status,
      handleSheetClick_pending, displayed_default. done.
  - by apply click_disabled.
Qed.

Lemma click_sends_one_request_unless_pending_witness :
  renderedButton (mounted 1 (job_of six_pending)) 0 0 2 = Some six_pending ∧
  apiCalls (clickSheetButton 0 0 2 (mounted 1 (job_of six_pending)))
  = [{| call_materialId := 5; call_sheetIndex := 2; call_status := "cut" |}].
Proof.
  split; [reflexivity |].
  exact (proj1 (proj1 (click_sends_one_request_unless_pending
                         (mounted 1 (job_of six_pending)) 0 0 2 six_pending
                         eq_refl) eq_refl)).
Defined.

(** C7, as stated, fails: a second click on the same cell while the
    first request is still in flight sends nothing and leaves the
    optimistic entry at "cut". *)
Lemma click_while_in_flight_is_suppressed :
  let st1 := clickSheetButton 0 0 2 (mounted 1 (job_of six_pending)) in
  renderedButton st1 0 0 2 = Some six_pending ∧
  isPending st1 = true ∧
  clickSheetButton 0 0 2 st1 = st1 ∧
  length (apiCalls (clickSheetButton 0 0 2 st1)) = 1%nat ∧
  optimisticStatus (clickSheetButton 0 0 2 st1) 5 2 = Some "cut".
Proof. vm_compute. repeat split; reflexivity. Qed.

(** Once a click's request has succeeded and the job record has been
    refetched, the cell still shows the optimistic value written by the
    click, whatever the refetched record holds for it: [onSuccess]
    refreshes the query but no path clears the entry.  The display
    agrees with the server exactly when the server holds that value. *)
Theorem optimistic_entry_outlives_refetch st c k index m j' m' :
  renderedButton st c k index = Some m →
  isPending st = false →
  id m' = id m →
  let next := nextSheetStatus (displayedStatus st m index) in
  let st3 := refetched j' (settle (nextMutation st) Success (clickSheetButton c k index st)) in
  displayedStatus st3 m' index = next ∧
  (displayedStatus st3 m' index = serverStatus m' index ↔ serverStatus m' index = next).
Proof.
  intros Hb Hp Hid next st3.
  assert (displayedStatus st3 m' index = next) as Hd.
  { unfold displayedStatus, st3, optimisticStatus. simpl.
    rewrite settle_success_optimistic, Hid, (click_enabled st c k index m Hb Hp).
    pose proof (handleSheetClick_status (id m) index (displayedStatus st m index) st)
      as Ho.
    rewrite displayed_default in Ho. unfold optimisticStatus in Ho.
    by rewrite Ho. }
  split; [done |]. rewrite Hd. split; congruence.
Qed.

Lemma optimistic_entry_outlives_refetch_witness :
  let st := mounted 1 (job_of six_pending) in
  displayedStatus
    (refetched (job_of six_first_skipped)
       (settle (nextMutation st) Success (clickSheetButton 0 0 0 st)))
    six_first_skipped 0 = "cut".
Proof.
  exact (proj1 (optimistic_entry_outlives_refetch
                  (mounted 1 (job_of six_pending)) 0 0 0 six_pending
                  (job_of six_first_skipped) six_first_skipped
                  eq_refl eq_refl eq_refl)).
Defined.

(** C5 on the code: the click set sheet 0 to "cut" and succeeded, the
    job query was invalidated and the refetched record holds "skip"
    there (another viewer wrote after); the popup goes on showing
    "cut", not the server's value: the refresh that [onSuccess] forces
    "to sync with server" cannot reach a cell whose optimistic entry is
    never cleared. *)
Lemma refetched_value_stays_shadowed :
  let st := mounted 1 (job_of six_pending) in
  let st3 := refetched (job_of six_first_skipped)
               (settle 0 Success (clickSheetButton 0 0 0 st)) in
  renderedButton st3 0 0 0 = Some six_first_skipped ∧
  invalidated st3 = [QJob 1] ∧
  serverStatus six_first_skipped 0 = "skip" ∧
  displayedStatus st3 six_first_skipped 0 = "cut" ∧
  displayedStatus st3 six_first_skipped 0 ≠ serverStatus six_first_skipped 0.
Proof. vm_compute. repeat split; try reflexivity. discriminate. Qed.

(** C6 on the code: sheet 0 is "cut" on the server and has no
    optimistic entry; a click shows "skip", the request fails, and the
    rollback writes "pending": the cell does not return to "cut". The
    error toast is shown. *)
Theorem rollback_of_server_value_shows_pending :
  let st := mounted 1 (job_of first_cut) in
  let st1 := clickSheetButton 0 0 0 st in
  let st2 := settle 0 (Failure (Some "500: Failed to update sheet status")) st1 in
  displayedStatus st first_cut 0 = "cut" ∧
  displayedStatus st1 first_cut 0 = "skip" ∧
  displayedStatus st2 first_cut 0 = "pending" ∧
  toasts st2 = [{| title := "Error";
                   description := "500: Failed to update sheet status";
                   variant := "destructive" |}].
Proof. vm_compute. repeat split; reflexivity. Qed.

(** Without a failure in between the rollback target is the previous
    optimistic entry: the first click succeeded (entry "cut"), the
    second fails and the cell is back at "cut". *)
Example rollback_to_previous_optimistic_entry :
  let st := mounted 1 (job_of six_pending) in
  let st2 := settle 0 Success (clickSheetButton 0 0 0 st) in
  let st4 := settle 1 (Failure None) (clickSheetButton 0 0 0 st2) in
  displayedStatus st2 six_pending 0 = "cut" ∧
  displayedStatus (clickSheetButton 0 0 0 st2) six_pending 0 = "skip" ∧
  displayedStatus st4 six_pending 0 = "cut" ∧
  length (toasts st4) = 1%nat.
Proof. vm_compute. repeat split; reflexivity. Qed.

(** ** The handlers *)

Section RouteFacts.
Context `{Builtins} {DB E : Type} `{!IStorage DB E}.
Implicit Types (req : Request) (st : ServerState DB).

Lemma delivered_nil messageStr i ws : delivered messageStr [] i ws = ws.
Proof.
  unfold delivered. case_decide as Hd; [| done].
  destruct Hd as [Hd _]. by apply elem_of_nil in Hd.
Qed.

Lemma delivered_cons messageStr c l i ws :
  c ∉ l →
  delivered messageStr l i (delivered messageStr [c] i ws)
  = delivered messageStr (c :: l) i ws.
Proof.
  intros Hc. unfold delivered.
  destruct (decide (i ∈ [c] ∧ readyState ws = OPEN)) as [[Hi Ho]|Hn1].
  - apply list_elem_of_singleton in Hi as ->.
    rewrite (decide_False (P := c ∈ l ∧ _)) by (intros [? _]; done).
    rewrite (decide_True (P := c ∈ c :: l ∧ _)); [done |].
    split; [apply list_elem_of_here | done].
  - destruct (decide (i ∈ l ∧ readyState ws = OPEN)) as [[Hi Ho]|Hn2].
    + rewrite (decide_True (P := i ∈ c :: l ∧ _)); [done |].
      split; [by apply list_elem_of_further | done].
    + rewrite (decide_False (P := i ∈ c :: l ∧ _)); [done |].
      intros [Hi Ho]. apply elem_of_cons in Hi as [->|Hi].
      * apply Hn1. split; [apply list_elem_of_here | done].
      * apply Hn2. done.
Qed.

Lemma send_if_open_lookup messageStr (socks : gmap nat WebSocket) client i :
  send_if_open messageStr socks client !! i
  = delivered messageStr [client] i <$> socks !! i.
Proof.
  destruct (decide (i = client)) as [->|Hne].
  - unfold send_if_open.
    destruct (socks !! client) as [ws|] eqn:Hws; [| by rewrite Hws].
    destruct (decide (readyState ws = OPEN)) as [Ho|Hno].
    + rewrite Ho, lookup_insert_eq. cbn [fmap option_fmap option_map]. f_equal.
      unfold delivered.
      rewrite decide_True; [done |]. split; [apply list_elem_of_here | done].
    + replace (match readyState ws with
               | OPEN => <[client := {| readyState := OPEN;
                                        sent := sent ws ++ [messageStr] |}]> socks
               | _ => socks
               end) with socks by (by destruct (readyState ws)).
      rewrite Hws. cbn [fmap option_fmap option_map]. f_equal. unfold delivered.
      rewrite decide_False; [done |]. intros [_ ?]; done.
  - assert (send_if_open messageStr socks client !! i = socks !! i) as ->.
    { unfold send_if_open. destruct (socks !! client) as [ws|]; [| done].
      destruct (readyState ws); try done. by rewrite lookup_insert_ne. }
    destruct (socks !! i) as [ws|]; [| done].
    cbn [fmap option_fmap option_map]. f_equal. unfold delivered.
    rewrite decide_False; [done |].
    intros [Hi _]. by apply list_elem_of_singleton in Hi.
Qed.

Lemma foldl_send_if_open messageStr (members : list nat) :
  NoDup members →
  ∀ (socks : gmap nat WebSocket) i,
    foldl (send_if_open messageStr) socks members !! i
    = delivered messageStr members i <$> socks !! i.
Proof.
  induction 1 as [|c l Hc Hl IH]; intros socks i; cbn [foldl].
  - destruct (socks !! i) as [ws|]; [| done].
    cbn [fmap option_fmap option_map]. by rewrite delivered_nil.
  - rewrite IH, send_if_open_lookup.
    destruct (socks !! i) as [ws|]; [| done].
    cbn [fmap option_fmap option_map]. by rewrite delivered_cons.
Qed.

(** One call of [broadcastToClients]: a socket that is in [clients]
    and open gets the stringified message appended once, every other
    socket keeps what it had. *)
Lemma broadcast_delivery message st i :
  sockets (broadcastToClients message st) !! i
  = (λ ws, if decide (i ∈ clients st ∧ readyState ws = OPEN)
           then {| readyState := OPEN; sent := sent ws ++ [JSON_stringify message] |}
           else ws) <$> sockets st !! i.
Proof.
  unfold broadcastToClients. simpl.
  rewrite foldl_send_if_open by apply NoDup_elements.
  destruct (sockets st !! i) as [ws|]; [| done].
  cbn [fmap option_fmap option_map]. f_equal. unfold delivered.
  destruct (decide (i ∈ clients st ∧ readyState ws = OPEN)) as [[Hi Ho]|Hn].
  - rewrite decide_True; [done |]. split; [by apply elem_of_elements | done].
  - rewrite decide_False; [done |]. intros [Hi Ho]. apply Hn.
    split; [by apply elem_of_elements | done].
Qed.

Lemma broadcast_db message st : db (broadcastToClients message st) = db st.
Proof. done. Qed.

Lemma lt_num_below_one (q : Q) : (q < 1)%Q → lt_num (JNum q) 1 = true.
Proof.
  intros Hq. unfold lt_num. simpl. apply negb_true_iff.
  destruct (Qle_bool 1 q) eqn:Hle; [| done].
  apply Qle_bool_iff in Hle. exfalso. by apply (Qlt_not_le q 1).
Qed.

(** The guard [!x || x < 1] of the add-sheets and add-recut handlers
    on a count that is absent or a number below 1. *)
Lemma count_guard_rejects (v : jsval) :
  v = JUndefined ∨ (∃ q, v = JNum q ∧ (q < 1)%Q) →
  negb (truthy v) || lt_num v 1 = true.
Proof.
  intros [->|(q & -> & Hq)]; [done |].
  rewrite lt_num_below_one by done. apply orb_true_r.
Qed.

End RouteFacts.

Section RouteClaims.
Context `{Builtins} {DB E : Type} `{!IStorage DB E}.
Implicit Types (req : Request) (st : ServerState DB).

(** C9: an add-sheets request whose [additionalSheets] is absent or
    below 1, and an add-recut request whose [quantity] is, is answered
    400 by the handler before any storage call: the server state,
    and with it every material, is what it was.  Behind [requireAuth]
    the same holds for a request with a session, and no request of
    this kind changes the state. *)
Theorem nonpositive_count_rejected_before_storage req st :
  (absent_or_below_one (body_field req "additionalSheets") →
     add_sheets_handler req st
       = (json_message 400 "Additional sheets must be a positive number", st) ∧
     (is_Some (session_user req) →
        post_materials_add_sheets req st
          = (json_message 400 "Additional sheets must be a positive number", st)) ∧
     (post_materials_add_sheets req st).2 = st) ∧
  (absent_or_below_one (body_field req "quantity") →
     add_recut_handler req st = (json_message 400 "Invalid recut quantity", st) ∧
     (is_Some (session_user req) →
        post_materials_recuts req st = (json_message 400 "Invalid recut quantity", st)) ∧
     (post_materials_recuts req st).2 = st).
Proof.
  split; intros Hv; apply count_guard_rejects in Hv.
  - assert (add_sheets_handler req st
            = (json_message 400 "Additional sheets must be a positive number", st)) as Hh.
    { unfold add_sheets_handler. cbn zeta. by rewrite Hv. }
    split; [done |]. unfold post_materials_add_sheets, requireAuth.
    split; [intros [u ->]; done |]. rewrite Hh. by destruct (session_user req).
  - assert (add_recut_handler req st
            = (json_message 400 "Invalid recut quantity", st)) as Hh.
    { unfold add_recut_handler. cbn zeta. by rewrite Hv. }
    split; [done |]. unfold post_materials_recuts, requireAuth.
    split; [intros [u ->]; done |]. rewrite Hh. by destruct (session_user req).
Qed.

(** C10: without a session user every sheet-mutating route (add
    sheets, both set-status routes, delete sheet, add recut, set recut
    sheet status) answers 401 and returns the server state untouched;
    GET /api/materials/:id/recuts never looks at the session: it
    answers what the storage call gives, the same for any two
    requests with the same parameters. *)
Theorem mutating_routes_require_session req st :
  session_user req = None →
  post_materials_add_sheets req st = (unauthorized, st) ∧
  post_materials_sheets req st = (unauthorized, st) ∧
  put_materials_sheet_status req st = (unauthorized, st) ∧
  delete_materials_sheet req st = (unauthorized, st) ∧
  post_materials_recuts req st = (unauthorized, st) ∧
  put_recuts_sheet_status req st = (unauthorized, st) ∧
  get_materials_recuts req st
    = match getRecutEntries (param_int req "id") (db st) with
      | (Resolved recutEntries, d) =>
          ({| status := 200; body := inr recutEntries |}, with_db st d)
      | (Rejected _, d) =>
          (json_message 500 "Failed to fetch recut entries", with_db st d)
      end ∧
  (∀ req', params req' = params req →
           get_materials_recuts req' st = get_materials_recuts req st).
Proof.
  intros Hs.
  unfold post_materials_add_sheets, post_materials_sheets,
    put_materials_sheet_status, delete_materials_sheet, post_materials_recuts,
    put_recuts_sheet_status, requireAuth. rewrite Hs.
  repeat split; try reflexivity.
  intros req' Hp. unfold get_materials_recuts, param_int. by rewrite Hp.
Qed.

(** C3, as amended: whatever [storage.updateSheetStatus] rejects
    with, a set-sheet-status request with a session is answered by
    the [catch] branch: status 500 with the one message "Failed to
    update sheet status", nothing broadcast.  The kind of failure
    does not reach the response. *)
Theorem storage_failures_all_answer_500 req st u :
  session_user req = Some u →
  (∀ e d,
     updateSheetStatus (param_int req "id") (body_field req "sheetIndex")
       (body_field req "status") (db st) = (Rejected e, d) →
     put_materials_sheet_status req st
       = (json_message 500 "Failed to update sheet status", with_db st d)) ∧
  (∀ e d,
     updateSheetStatus (param_int req "materialId") (param_int req "sheetIndex")
       (body_field req "status") (db st) = (Rejected e, d) →
     post_materials_sheets req st
       = (json_message 500 "Failed to update sheet status", with_db st d)).
Proof.
  intros Hs. split; intros e d Hr.
  - unfold put_materials_sheet_status, requireAuth, sheet_status_handler, try_storage.
    rewrite Hs. cbn zeta. by rewrite Hr.
  - unfold post_materials_sheets, requireAuth, post_sheet_handler, try_storage.
    rewrite Hs. cbn zeta. by rewrite Hr.
Qed.

(** When the storage call resolves, the PUT handler answers 200 and
    broadcasts once: each socket that is in [clients] and open gets
    one more message, of type "sheet_status_updated" with the data
    fields [id], [sheetIndex], [status] (those not undefined); every
    other socket keeps what it had. *)
Lemma sheet_status_broadcast req st u d i :
  session_user req = Some u →
  updateSheetStatus (param_int req "id") (body_field req "sheetIndex")
    (body_field req "status") (db st) = (Resolved (), d) →
  let '(res, st') := put_materials_sheet_status req st in
  res = json_message 200 "Sheet status updated" ∧
  db st' = d ∧
  sockets st' !! i
  = (λ ws, if decide (i ∈ clients st ∧ readyState ws = OPEN)
           then {| readyState := OPEN;
                   sent := sent ws ++
                     [JSON_stringify
                        {| msg_type := "sheet_status_updated";
                           msg_data := [("id", param_int req "id");
                                        ("sheetIndex", body_field req "sheetIndex");
                                        ("status", body_field req "status")] |}] |}
           else ws) <$> sockets st !! i.
Proof.
  intros Hs Hr.
  unfold put_materials_sheet_status, requireAuth, sheet_status_handler, try_storage.
  rewrite Hs. cbn zeta. rewrite Hr.
  split; [done |]. split; [done |]. by rewrite broadcast_delivery.
Qed.

End RouteClaims.

(** ** The handlers on a concrete server *)

Lemma nonpositive_count_rejected_before_storage_witness :
  absent_or_below_one (body_field (count_request (Some operator) "5" (Some (JNum 0))) "additionalSheets") ∧
  absent_or_below_one (body_field (count_request (Some operator) "5" None) "quantity") ∧
  post_materials_add_sheets (count_request (Some operator) "5" (Some (JNum 0))) three_viewers
  = (json_message 400 "Additional sheets must be a positive number", three_viewers) ∧
  post_materials_recuts (count_request (Some operator) "5" None) three_viewers
  = (json_message 400 "Invalid recut quantity", three_viewers).
Proof.
  assert (absent_or_below_one
            (body_field (count_request (Some operator) "5" (Some (JNum 0))) "additionalSheets"))
    as Hzero by (right; exists 0%Q; split; reflexivity).
  assert (absent_or_below_one
            (body_field (count_request (Some operator) "5" None) "quantity"))
    as Habsent by (left; reflexivity).
  split; [exact Hzero |]. split; [exact Habsent |]. split.
  - exact (proj1 (proj2 (proj1 (nonpositive_count_rejected_before_storage
             (count_request (Some operator) "5" (Some (JNum 0))) three_viewers) Hzero))
             (ex_intro _ operator eq_refl)).
  - exact (proj1 (proj2 (proj2 (nonpositive_count_rejected_before_storage
             (count_request (Some operator) "5" None) three_viewers) Habsent))
             (ex_intro _ operator eq_refl)).
Defined.

Lemma mutating_routes_require_session_witness :
  put_materials_sheet_status (sheet_status_request None "5" (JNum 2) (JStr "cut")) three_viewers
  = (unauthorized, three_viewers) ∧
  (get_materials_recuts (sheet_status_request None "5" (JNum 2) (JStr "cut")) three_viewers).1
  = {| status := 200; body := inr [] |}.
Proof.
  pose proof (mutating_routes_require_session
                (sheet_status_request None "5" (JNum 2) (JStr "cut")) three_viewers
                eq_refl) as (_ & _ & Hput & _ & _ & _ & Hget & _).
  split; [exact Hput |]. rewrite Hget. reflexivity.
Defined.

Lemma storage_failures_all_answer_500_witness :
  put_materials_sheet_status
    (sheet_status_request (Some operator) "99" (JNum 0) (JStr "cut")) three_viewers
  = (json_message 500 "Failed to update sheet status", three_viewers).
Proof.
  exact (proj1 (storage_failures_all_answer_500
                  (sheet_status_request (Some operator) "99" (JNum 0) (JStr "cut"))
                  three_viewers operator eq_refl) NotFound db_six eq_refl).
Defined.

(** C3, as stated, fails: an absent material, an index out of range
    and an unknown status make the storage call reject with three
    different kinds, and the three responses are the same. *)
Lemma failure_kinds_share_one_response :
  let absent := sheet_status_request (Some operator) "99" (JNum 0) (JStr "cut") in
  let beyond := sheet_status_request (Some operator) "5" (JNum 6) (JStr "cut") in
  let unknown := sheet_status_request (Some operator) "5" (JNum 0) (JStr "done") in
  (updateSheetStatus (JNum 99) (JNum 0) (JStr "cut") db_six).1 = Rejected NotFound ∧
  (updateSheetStatus (JNum 5) (JNum 6) (JStr "cut") db_six).1 = Rejected OutOfRange ∧
  (updateSheetStatus (JNum 5) (JNum 0) (JStr "done") db_six).1 = Rejected InvalidArgument ∧
  (put_materials_sheet_status absent three_viewers).1
  = json_message 500 "Failed to update sheet status" ∧
  (put_materials_sheet_status beyond three_viewers).1
  = (put_materials_sheet_status absent three_viewers).1 ∧
  (put_materials_sheet_status unknown three_viewers).1
  = (put_materials_sheet_status absent three_viewers).1.
Proof. vm_compute. repeat split; reflexivity. Qed.

(** C4 on the code: sheet 2 of material 5 is set to "cut" with three
    sockets known, the second closed.  The response is 200, the
    material holds "cut" at index 2 with one completed sheet, sockets 1
    and 3 each get one "sheet_status_updated" message and socket 2
    none; but the data fields of the message are [id], [sheetIndex],
    [status]: there is no [materialId], which the POST route on the
    same input does send. *)
Theorem put_sheet_status_event_carries_id :
  let req := sheet_status_request (Some operator) "5" (JNum 2) (JStr "cut") in
  let event := {| msg_type := "sheet_status_updated";
                  msg_data := [("id", JNum 5); ("sheetIndex", JNum 2);
                               ("status", JStr "cut")] |} in
  let sibling := {| msg_type := "sheet_status_updated";
                    msg_data := [("materialId", JNum 5); ("sheetIndex", JNum 2);
                                 ("status", JStr "cut")] |} in
  let '(res, st') := put_materials_sheet_status req three_viewers in
  res = json_message 200 "Sheet status updated" ∧
  (sheetStatuses <$> job_materials (db st') !! 5)
  = Some (Some ["pending"; "pending"; "cut"; "pending"; "pending"; "pending"]) ∧
  (completedSheets <$> job_materials (db st') !! 5) = Some 1 ∧
  sockets st' !! 1%nat = Some {| readyState := OPEN; sent := [event] |} ∧
  sockets st' !! 2%nat = Some {| readyState := CLOSED; sent := [] |} ∧
  sockets st' !! 3%nat = Some {| readyState := OPEN; sent := [event] |} ∧
  (msg_data event).*1 = ["id"; "sheetIndex"; "status"] ∧
  sockets (post_materials_sheets
             (post_sheet_request (Some operator) "5" "2" (JStr "cut")) three_viewers).2
    !! 1%nat
  = Some {| readyState := OPEN; sent := [sibling] |}.
Proof. vm_compute. repeat split; reflexivity. Qed.

(** ** The storage operations: lengths and counts *)

Section StorageFacts.
Implicit Types (d : DB) (m : JobMaterial) (r : RecutEntry) (l : list string).

Lemma count_cut_pending n : count_cut (replicate n "pending") = 0.
Proof.
  unfold count_cut. induction n as [|n IH]; [done |].
  simpl. rewrite filter_cons_False by done. exact IH.
Qed.

Lemma count_cut_app_pending l n :
  count_cut (l ++ replicate n "pending") = count_cut l.
Proof.
  pose proof (count_cut_pending n) as Hn. unfold count_cut in *.
  rewrite filter_app, length_app. lia.
Qed.

Lemma in_range_spec i n : in_range i n = true ↔ 0 ≤ i < n.
Proof. unfold in_range. rewrite andb_true_iff, Z.leb_le, Z.ltb_lt. done. Qed.

Lemma with_sheets_counts m total l : count_consistent (with_sheets m total l).
Proof. by exists l. Qed.

Lemma with_recut_sheets_counts r l : recut_count_consistent (with_recut_sheets r l).
Proof. by exists l. Qed.

Lemma exec_sheets_consistent op d :
  db_sheets_consistent d → db_sheets_consistent (exec op d).2.
Proof.
  intros Hd. destruct op as [c col n|mid n rc|mid i|mid i s|rid i s|mid n w u]; simpl.
  - unfold createMaterial. destruct (n <? 1) eqn:Hn; [done |].
    apply Z.ltb_ge in Hn. simpl.
    apply (map_Forall_insert_2 (λ _ m, sheets_consistent m)); [| done].
    eexists. split; [done |]. simpl. rewrite length_replicate. lia.
  - unfold addSheets, addRecut. destruct rc.
    + destruct (job_materials d !! mid); [| done]. by destruct (n <? 1).
    + destruct (job_materials d !! mid) as [m|] eqn:Hm; [| done].
      destruct (n <? 1) eqn:Hn; [done |]. apply Z.ltb_ge in Hn. simpl.
      apply (map_Forall_insert_2 (λ _ m, sheets_consistent m)); [| done].
      destruct (Hd _ _ Hm) as (l & Hl & Hlen).
      eexists. split; [done |]. simpl. rewrite Hl. simpl.
      rewrite length_app, length_replicate. lia.
  - unfold deleteSheetAt. destruct (job_materials d !! mid) as [m|] eqn:Hm; [| done].
    destruct (in_range i (totalSheets m)) eqn:Hi; [| done].
    apply in_range_spec in Hi. simpl.
    apply (map_Forall_insert_2 (λ _ m, sheets_consistent m)); [| done].
    destruct (Hd _ _ Hm) as (l & Hl & Hlen).
    eexists. split; [done |]. simpl. rewrite Hl. simpl.
    rewrite length_delete by (apply lookup_lt_is_Some_2; lia). lia.
  - unfold setSheetStatus. destruct (job_materials d !! mid) as [m|] eqn:Hm; [| done].
    destruct (in_range i (totalSheets m)); [| done].
    destruct (is_status s); [| done]. simpl.
    apply (map_Forall_insert_2 (λ _ m, sheets_consistent m)); [| done].
    destruct (Hd _ _ Hm) as (l & Hl & Hlen).
    eexists. split; [done |]. simpl. rewrite Hl. simpl.
    by rewrite length_insert.
  - unfold setRecutSheetStatus. destruct (recut_entries d !! rid) as [r|]; [| done].
    destruct (in_range i (quantity r)); [| done]. by destruct (is_status s).
  - unfold addRecut. destruct (job_materials d !! mid); [| done]. by destruct (n <? 1).
Qed.

Lemma exec_counts_consistent op d :
  db_counts_consistent d → db_counts_consistent (exec op d).2.
Proof.
  intros [Hm Hr].
  destruct op as [c col n|mid n rc|mid i|mid i s|rid i s|mid n w u]; simpl.
  - unfold createMaterial. destruct (n <? 1); [done |]. split; [| done]. simpl.
    apply (map_Forall_insert_2 (λ _ m, count_consistent m)); [| done].
    eexists. split; [done |]. simpl. by rewrite count_cut_pending.
  - unfold addSheets, addRecut. destruct rc.
    + destruct (job_materials d !! mid); [| done].
      destruct (n <? 1); [done |]. split; [done |]. simpl.
      apply (map_Forall_insert_2 (λ _ r, recut_count_consistent r)); [| done].
      eexists. split; [done |]. simpl. by rewrite count_cut_pending.
    + destruct (job_materials d !! mid) as [m|] eqn:Hmid; [| done].
      destruct (n <? 1); [done |]. split; [| done]. simpl.
      apply (map_Forall_insert_2 (λ _ m, count_consistent m)); [| done].
      destruct (Hm _ _ Hmid) as (l & Hl & Hc).
      eexists. split; [done |]. simpl. rewrite Hl. simpl.
      by rewrite count_cut_app_pending.
  - unfold deleteSheetAt. destruct (job_materials d !! mid) as [m|]; [| done].
    destruct (in_range i (totalSheets m)); [| done]. split; [| done]. simpl.
    apply (map_Forall_insert_2 (λ _ m, count_consistent m)); [| done].
    apply with_sheets_counts.
  - unfold setSheetStatus. destruct (job_materials d !! mid) as [m|]; [| done].
    destruct (in_range i (totalSheets m)); [| done].
    destruct (is_status s); [| done]. split; [| done]. simpl.
    apply (map_Forall_insert_2 (λ _ m, count_consistent m)); [| done].
    apply with_sheets_counts.
  - unfold setRecutSheetStatus. destruct (recut_entries d !! rid) as [r|]; [| done].
    destruct (in_range i (quantity r)); [| done].
    destruct (is_status s); [| done]. split; [done |]. simpl.
    apply (map_Forall_insert_2 (λ _ r, recut_count_consistent r)); [| done].
    apply with_recut_sheets_counts.
  - unfold addRecut. destruct (job_materials d !! mid); [| done].
    destruct (n <? 1); [done |]. split; [done |]. simpl.
    apply (map_Forall_insert_2 (λ _ r, recut_count_consistent r)); [| done].
    eexists. split; [done |]. simpl. by rewrite count_cut_pending.
Qed.

Lemma run_invariant (P : DB → Prop) :
  (∀ op d, P d → P (exec op d).2) → ∀ ops d, P d → P (run ops d).
Proof.
  intros Hstep ops. unfold run.
  induction ops as [|op ops IH]; intros d Hd; simpl; [done |].
  apply IH, Hstep, Hd.
Qed.

End StorageFacts.

Section StorageBehindRoutes.
Context `{Builtins}.
Implicit Types (req : Request) (st : ServerState DB).

Lemma try_storage_db {A} (call : DB → Settled ErrorKind A * DB) failed st rest :
  (∀ a st', db (rest a st').2 = db st') →
  db (try_storage call failed st rest).2 = (call (db st)).2.
Proof.
  intros Hrest. unfold try_storage.
  destruct (call (db st)) as [[a|e] d']; simpl; [| done]. by rewrite Hrest.
Qed.

(** With the storage operations above behind them, the three
    handlers that resize a status sequence either leave the tables as
    they are or run one storage operation. *)
Lemma resizing_routes_run_one_operation req st :
  (db (post_jobs_materials req st).2 = db st ∨
   ∃ op, db (post_jobs_materials req st).2 = (exec op (db st)).2) ∧
  (db (post_materials_add_sheets req st).2 = db st ∨
   ∃ op, db (post_materials_add_sheets req st).2 = (exec op (db st)).2) ∧
  (db (delete_materials_sheet req st).2 = db st ∨
   ∃ op, db (delete_materials_sheet req st).2 = (exec op (db st)).2).
Proof.
  unfold post_jobs_materials, post_materials_add_sheets, delete_materials_sheet,
    requireAuth.
  destruct (session_user req); [| by repeat split; left].
  repeat split.
  - unfold add_material_handler. cbn zeta.
    destruct (_ || _); [by left |].
    rewrite try_storage_db by done. cbn [addMaterialToJob spec_storage].
    destruct (as_int (body_field req "colorId")) as [c|]; [| by left].
    right. by eexists (CreateMaterial None c _).
  - unfold add_sheets_handler. cbn zeta.
    destruct (_ || _); [by left |].
    rewrite try_storage_db by done. cbn [addSheetsToMaterial spec_storage].
    destruct (as_int (param_int req "id")) as [m|]; [| by left].
    right. by eexists (AddSheets m _ _).
  - unfold delete_sheet_handler. cbn zeta.
    rewrite try_storage_db by done. cbn [deleteSheet spec_storage].
    destruct (as_int (param_int req "id")) as [m|]; [| by left].
    right. by eexists (DeleteSheet m _).
Qed.

End StorageBehindRoutes.

Lemma db_six_sheets_consistent : db_sheets_consistent db_six.
Proof.
  intros k m Hk.
  change (({[5 := six_pending]} : gmap Z JobMaterial) !! k = Some m) in Hk.
  apply lookup_singleton_Some in Hk as [_ <-].
  eexists. split; reflexivity.
Qed.

Lemma db_six_counts_consistent : db_counts_consistent db_six.
Proof.
  split; [| done]. intros k m Hk.
  change (({[5 := six_pending]} : gmap Z JobMaterial) !! k = Some m) in Hk.
  apply lookup_singleton_Some in Hk as [_ <-].
  eexists. split; reflexivity.
Qed.

(** C1, on the storage operations modelled from the spec: if every
    material's [sheetStatuses] has
    [totalSheets] entries, it still has after any storage operation
    (material creation, add-sheets, delete-sheet, and the others), and
    so after any request to the add-material, add-sheets and
    delete-sheet handlers. *)
Theorem sheet_statuses_length_is_total_sheets `{Builtins} op req (st : ServerState DB) :
  db_sheets_consistent (db st) →
  db_sheets_consistent (exec op (db st)).2 ∧
  db_sheets_consistent (db (post_jobs_materials req st).2) ∧
  db_sheets_consistent (db (post_materials_add_sheets req st).2) ∧
  db_sheets_consistent (db (delete_materials_sheet req st).2).
Proof.
  intros Hd. split; [by apply exec_sheets_consistent |].
  destruct (resizing_routes_run_one_operation req st) as (Hc & Ha & Hx).
  repeat split.
  - destruct Hc as [->|[o ->]]; [done | by apply exec_sheets_consistent].
  - destruct Ha as [->|[o ->]]; [done | by apply exec_sheets_consistent].
  - destruct Hx as [->|[o ->]]; [done | by apply exec_sheets_consistent].
Qed.

Lemma sheet_statuses_length_is_total_sheets_witness :
  db_sheets_consistent (db three_viewers) ∧
  db_sheets_consistent (exec (DeleteSheet 5 2) (db three_viewers)).2 ∧
  db_sheets_consistent
    (db (post_materials_add_sheets
           (count_request (Some operator) "5" (Some (JNum 3))) three_viewers).2).
Proof.
  split; [exact db_six_sheets_consistent |].
  pose proof (sheet_statuses_length_is_total_sheets
                (DeleteSheet 5 2) (count_request (Some operator) "5" (Some (JNum 3)))
                three_viewers db_six_sheets_consistent) as (Hx & _ & Ha & _).
  split; [exact Hx | exact Ha].
Defined.

(** Every sequence of storage operations from the empty tables keeps
    both invariants. *)
Lemma run_from_empty_consistent ops :
  db_sheets_consistent (run ops empty_db) ∧ db_counts_consistent (run ops empty_db).
Proof.
  split.
  - apply (run_invariant db_sheets_consistent); [apply exec_sheets_consistent | done].
  - apply (run_invariant db_counts_consistent); [apply exec_counts_consistent |].
    by split.
Qed.

(** The scenarios of section 8 on the storage operations: six pending
    sheets, index 2 set to "cut" and then to "skip"; three sheets added;
    sheet 2 deleted. *)
Example storage_scenarios :
  let cut2 := (exec (SetSheetStatus 5 2 "cut") db_six).2 in
  let skip2 := (exec (SetSheetStatus 5 2 "skip") cut2).2 in
  let plus3 := (exec (AddSheets 5 3 false) cut2).2 in
  let less1 := (exec (DeleteSheet 5 2) cut2).2 in
  (completedSheets <$> job_materials cut2 !! 5) = Some 1 ∧
  (completedSheets <$> job_materials skip2 !! 5) = Some 0 ∧
  (sheetStatuses <$> job_materials skip2 !! 5)
  = Some (Some ["pending"; "pending"; "skip"; "pending"; "pending"; "pending"]) ∧
  (totalSheets <$> job_materials plus3 !! 5) = Some 9 ∧
  (sheetStatuses <$> job_materials plus3 !! 5)
  = Some (Some ["pending"; "pending"; "cut"; "pending"; "pending"; "pending";
                "pending"; "pending"; "pending"]) ∧
  (totalSheets <$> job_materials less1 !! 5) = Some 5 ∧
  (completedSheets <$> job_materials less1 !! 5) = Some 0 ∧
  (exec (SetSheetStatus 5 6 "cut") db_six).1 = Rejected OutOfRange.
Proof. vm_compute. repeat split; reflexivity. Qed.

(** A successful set-status call recounts, whatever the row held. *)
Lemma setSheetStatus_recounts mid i s d d' :
  setSheetStatus mid i s d = (Resolved (), d') →
  ∃ m, job_materials d' !! mid = Some m ∧ count_consistent m.
Proof.
  unfold setSheetStatus. destruct (job_materials d !! mid) as [m|]; [| done].
  destruct (in_range i (totalSheets m)); [| done].
  destruct (is_status s); [| done]. simpl. intros [= <-]. simpl.
  eexists. rewrite lookup_insert_eq. split; [done |]. apply with_sheets_counts.
Qed.

(** C2, on the storage operations modelled from the spec: if
    [completedSheets] is the number of "cut"
    entries for every material and every recut entry, it still is
    after any storage operation; and the counter the popup shows for a
    material, counted from [sheetStatuses], is that field. *)
Theorem completed_sheets_is_cut_count op d :
  db_counts_consistent d →
  db_counts_consistent (exec op d).2 ∧
  (∀ k m, job_materials (exec op d).2 !! k = Some m →
          sheetStatuses m ≫= (λ l, Some (count_cut l)) = Some (completedSheets m) ∧
          Z.of_nat (displayedCompleted m) = completedSheets m) ∧
  (∀ k r, recut_entries (exec op d).2 !! k = Some r →
          recut_sheetStatuses r ≫= (λ l, Some (count_cut l))
          = Some (recut_completedSheets r) ∧
          Z.of_nat (displayedRecutCompleted r) = recut_completedSheets r).
Proof.
  intros Hd. pose proof (exec_counts_consistent op d Hd) as Hd'.
  split; [done |]. destruct Hd' as [Hm Hr]. split.
  - intros k m Hk. destruct (Hm k m Hk) as (l & Hl & Hc).
    unfold displayedCompleted. rewrite Hl. simpl. by rewrite Hc.
  - intros k r Hk. destruct (Hr k r Hk) as (l & Hl & Hc).
    unfold displayedRecutCompleted. rewrite Hl. simpl. by rewrite Hc.
Qed.

Lemma completed_sheets_is_cut_count_witness :
  db_counts_consistent db_six ∧
  db_counts_consistent (exec (SetSheetStatus 5 2 "cut") db_six).2.
Proof.
  split; [exact db_six_counts_consistent |].
  exact (proj1 (completed_sheets_is_cut_count (SetSheetStatus 5 2 "cut") db_six
                  db_six_counts_consistent)).
Defined.

(** ** The popup over any sequence of events *)

Section PopupRunFacts.
Implicit Types (st : PopupState) (m : JobMaterial) (e : Event).

Lemma nextSheetStatus_valid s : is_sheet_status (nextSheetStatus s).
Proof.
unfold nextSheetStatus, is_sheet_status.
destruct (String.eqb s "pending"); [tauto |].
destruct (String.eqb s "cut"); tauto.
Qed.

Lemma or_else_pending_valid (prev : option string) :
(∀ s, prev = Some s → is_sheet_status s) → is_sheet_status (or_else prev "pending").
Proof.
intros Hv. unfold or_else. destruct prev as [s|]; [| by left].
destruct (String.eqb s ""); [by left | by apply Hv].
Qed.

Lemma not_pending_nothing_in_flight st :
single_flight st → isPending st = false → inFlight st = [].
Proof.
intros [Hi|(k & ctx & Hi & Hc)] Hp; [done |].
unfold isPending in Hp. rewrite Hc, Hi in Hp. simpl in Hp.
apply bool_decide_eq_false in Hp. exfalso. apply Hp. apply list_elem_of_here.
Qed.

Lemma list_find_single (k k0 : nat) (ctx : SheetContext) :
list_find (λ e : nat * SheetContext, e.1 = k) [(k0, ctx)]
= if decide (k0 = k) then Some (0%nat, (k0, ctx)) else None.
Proof. simpl. by destruct (decide (k0 = k)). Qed.

Lemma step_keeps_flight_and_account e st :
single_flight st ∧ requests_accounted st ∧ length (apiCalls st) = nextMutation st →
single_flight (step e st) ∧ requests_accounted (step e st) ∧
length (apiCalls (step e st)) = nextMutation (step e st).
Proof.
intros (Hs & Ha & Hn). unfold requests_accounted in *.
destruct e as [c k index|k r|j| |]; simpl; try done.
- unfold clickSheetButton. destruct (renderedButton st c k index) as [m|]; [| done].
  destruct (isPending st) eqn:Hp; [done |].
  pose proof (not_pending_nothing_in_flight st Hs Hp) as Hi.
  unfold handleSheetClick, mutate, onMutate, single_flight. simpl.
  rewrite Hi. simpl. rewrite !length_app, Hi in *. simpl in *.
  split; [right; eauto |]. split; lia.
- unfold settle. destruct Hs as [Hi|(k0 & ctx & Hi & Hc)].
  + rewrite Hi. simpl. split; [by left | done].
  + rewrite Hi, list_find_single. destruct (decide (k0 = k)) as [->|Hne].
    * assert (filter (λ e : nat * SheetContext, e.1 ≠ k) [(k, ctx)] = []) as Hfilter.
      { rewrite filter_cons_False by (intros Hk; by apply Hk). done. }
      unfold single_flight.
      destruct r as [|msg];
        cbn [onSuccess onError remove_inflight set_optimistic inFlight apiCalls
             toasts invalidated nextMutation currentMutation];
        rewrite Hi, Hfilter; rewrite ?length_app, Hi in *; simpl in *;
        (split; [by left |]; split; lia).
    * split; [right; eauto | done].
Qed.

Lemma run_keeps P es st :
(∀ e st', P st' → P (step e st')) → P st → P (run_events es st).
Proof.
intros Hstep. unfold run_events. revert st.
induction es as [|e es IH]; intros st Hst; simpl; [done |].
apply IH, Hstep, Hst.
Qed.

Lemma write_cell_valid mid index s st :
is_sheet_status s →
(∀ mid' index' s', optimisticStatus st mid' index' = Some s' → is_sheet_status s') →
∀ mid' index' s',
  write_cell mid index s (optimisticSheetStatuses st) !! mid'
    ≫= (λ row, row !! index') = Some s' →
  is_sheet_status s'.
Proof.
intros Hs Hv mid' index' s' Hl.
destruct (decide ((mid', index') = (mid, index))) as [[= -> ->]|Hne].
- rewrite write_cell_lookup in Hl. by injection Hl as <-.
- rewrite write_cell_other in Hl by done. by apply (Hv mid' index').
Qed.

Lemma step_keeps_statuses_valid e st : statuses_valid st → statuses_valid (step e st).
Proof.
intros (Hc & Ho & Hf). unfold statuses_valid.
destruct e as [c k index|k r|j| |]; simpl; try done.
- unfold clickSheetButton. destruct (renderedButton st c k index) as [m|]; [| done].
  destruct (isPending st); [done |].
  unfold handleSheetClick, mutate, onMutate, optimisticStatus. simpl.
  repeat split.
  + apply Forall_app. split; [done |]. apply Forall_singleton. simpl.
    apply nextSheetStatus_valid.
  + apply write_cell_valid; [apply nextSheetStatus_valid | done].
  + apply Forall_app. split; [done |]. apply Forall_singleton. simpl.
    intros s Hs. by apply (Ho (id m) index).
- unfold settle.
  destruct (list_find (λ x, x.1 = k) (inFlight st)) as [[i [k' ctx]]|] eqn:Hfind;
    [| done].
  apply list_find_Some in Hfind as (Hl & _ & _).
  assert (∀ s, previousStatus ctx = Some s → is_sheet_status s) as Hctx.
  { rewrite Forall_forall in Hf. apply (Hf (k', ctx)).
    by eapply list_elem_of_lookup_2. }
  assert (Forall (λ x, ∀ s, previousStatus x.2 = Some s → is_sheet_status s)
            (filter (λ x, x.1 ≠ k) (inFlight st))) as Hf'.
  { rewrite Forall_forall in *. intros x Hx.
    apply list_elem_of_filter in Hx as [_ Hx]. by apply Hf. }
  destruct r as [|msg]; simpl; [done |].
  repeat split; [done | | done].
  unfold optimisticStatus. simpl.
  apply write_cell_valid; [by apply or_else_pending_valid | done].
Qed.

Lemma step_keeps_entries e st mid index :
is_Some (optimisticStatus st mid index) →
is_Some (optimisticStatus (step e st) mid index).
Proof.
intros Hs.
assert (∀ mid0 index0 s0,
          is_Some (write_cell mid0 index0 s0 (optimisticSheetStatuses st) !! mid
                     ≫= (λ row, row !! index))) as Hw.
{ intros mid0 index0 s0.
  destruct (decide ((mid, index) = (mid0, index0))) as [[= -> ->]|Hne].
  - rewrite write_cell_lookup. by eexists.
  - by rewrite write_cell_other. }
destruct e as [c k i|k r|j| |]; simpl; try done.
- unfold clickSheetButton. destruct (renderedButton st c k i) as [m|]; [| done].
  destruct (isPending st); [done |]. apply Hw.
- unfold settle.
  destruct (list_find (λ x, x.1 = k) (inFlight st)) as [[i [k' ctx]]|]; [| done].
  destruct r as [|msg]; [done |]. apply Hw.
Qed.

End PopupRunFacts.

(** X1: a click on a sheet button changes what is displayed for that
    cell only: every cell of another material, and every other index
    of the same material, shows what it showed before. *)
Theorem click_changes_one_cell st c k index m' index' :
  (∀ m, renderedButton st c k index = Some m → (id m', index') ≠ (id m, index)) →
  displayedStatus (clickSheetButton c k index st) m' index'
  = displayedStatus st m' index'.
Proof.
  intros Hother. unfold clickSheetButton.
  destruct (renderedButton st c k index) as [m|]; [| done].
  destruct (isPending st); [done |].
  unfold displayedStatus, handleSheetClick, mutate, onMutate, optimisticStatus. simpl.
  rewrite write_cell_other by (by apply Hother). done.
Qed.

Lemma click_changes_one_cell_witness :
  displayedStatus (clickSheetButton 0 0 2 (mounted 1 (job_of six_pending))) six_pending 3
  = "pending".
Proof.
  rewrite (click_changes_one_cell (mounted 1 (job_of six_pending)) 0 0 2 six_pending 3).
  - reflexivity.
  - intros m Hm. injection Hm as <-. discriminate.
Defined.

(** X2: from the moment the popup is mounted, whatever is clicked and
    whatever answers arrive, at most one status request is unanswered,
    and the buttons are disabled exactly while there is one. *)
Theorem at_most_one_request_in_flight es jid j :
  let st := run_events es (mounted jid j) in
  (length (inFlight st) ≤ 1)%nat ∧
  (isPending st = true ↔ inFlight st ≠ []).
Proof.
  cbn zeta.
  assert (single_flight (run_events es (mounted jid j))) as Hs.
  { apply (run_keeps (λ st, single_flight st ∧ requests_accounted st ∧
                            length (apiCalls st) = nextMutation st)).
    - apply step_keeps_flight_and_account.
    - repeat split. by left. }
  split.
  - destruct Hs as [->|(k & ctx & -> & _)]; simpl; lia.
  - split.
    + intros Hp Hi. unfold isPending in Hp. rewrite Hi in Hp.
      by destruct (currentMutation _).
    + intros Hi. destruct Hs as [Hs|(k & ctx & Hs & Hc)]; [done |].
      unfold isPending. rewrite Hc, Hs. simpl.
      apply bool_decide_eq_true. apply list_elem_of_here.
Qed.

(** X3: every request the popup has sent is answered exactly once or
    still in flight: the number of requests is the number of error
    toasts plus the number of query invalidations plus the number of
    unanswered requests; answers to requests it does not know change
    nothing in that count. *)
Theorem every_request_is_answered_once es jid j :
  let st := run_events es (mounted jid j) in
  length (apiCalls st)
  = (length (toasts st) + length (invalidated st) + length (inFlight st))%nat ∧
  length (apiCalls st) = nextMutation st.
Proof.
  cbn zeta.
  assert (single_flight (run_events es (mounted jid j)) ∧
          requests_accounted (run_events es (mounted jid j)) ∧
          length (apiCalls (run_events es (mounted jid j)))
          = nextMutation (run_events es (mounted jid j))) as (_ & Ha & Hn).
  { apply (run_keeps (λ st, single_flight st ∧ requests_accounted st ∧
                            length (apiCalls st) = nextMutation st)).
    - apply step_keeps_flight_and_account.
    - repeat split. by left. }
  done.
Qed.

(** X4: whatever strings the job record holds as statuses, the popup
    only ever sends "pending", "cut" or "skip", and only ever keeps
    one of the three as an optimistic entry. *)
Theorem only_the_three_statuses_are_sent es jid j :
  let st := run_events es (mounted jid j) in
  Forall (λ call, is_sheet_status (call_status call)) (apiCalls st) ∧
  (∀ mid index s, optimisticStatus st mid index = Some s → is_sheet_status s).
Proof.
  cbn zeta.
  assert (statuses_valid (run_events es (mounted jid j))) as (Hc & Ho & _).
  { apply (run_keeps statuses_valid); [apply step_keeps_statuses_valid |].
    repeat split; [by apply Forall_nil | | by apply Forall_nil].
    intros mid index s Hs. unfold optimisticStatus in Hs. simpl in Hs.
    by rewrite lookup_empty in Hs. }
  done.
Qed.

(** X5: an optimistic entry is never removed: once a cell has one it
    has one after any further clicks, answers, refetches, query errors
    and minimising, so what the cell displays no longer depends on the
    statuses of the job record. *)
Theorem optimistic_entry_is_permanent es st m m' index :
  is_Some (optimisticStatus st (id m) index) →
  id m' = id m →
  is_Some (optimisticStatus (run_events es st) (id m) index) ∧
  displayedStatus (run_events es st) m' index
  = displayedStatus (run_events es st) m index.
Proof.
  intros Hs Hid.
  assert (is_Some (optimisticStatus (run_events es st) (id m) index)) as [s Hrun].
  { apply (run_keeps (λ st', is_Some (optimisticStatus st' (id m) index))); [| done].
    intros e st'. apply step_keeps_entries. }
  split; [by exists s |]. unfold displayedStatus. by rewrite Hid, Hrun.
Qed.

Lemma optimistic_entry_is_permanent_witness :
  let st := clickSheetButton 0 0 0 (mounted 1 (job_of six_pending)) in
  let es := [Answer 0 Success; Refetch (job_of six_first_skipped); Minimize] in
  displayedStatus (run_events es st) six_first_skipped 0
  = displayedStatus (run_events es st) six_pending 0.
Proof.
  exact (proj2 (optimistic_entry_is_permanent
                  [Answer 0 Success; Refetch (job_of six_first_skipped); Minimize]
                  (clickSheetButton 0 0 0 (mounted 1 (job_of six_pending)))
                  six_pending six_first_skipped 0
                  (ex_intro _ "cut" eq_refl) eq_refl)).
Defined.

(** X6: on every string the click cycle answers one of the three
    statuses; a string that is none of them is sent to "pending"; on
    the three statuses the cycle returns to its start after three
    steps.  The copy used for recut sheets is the same function. *)
Theorem cycle_on_every_string s :
  is_sheet_status (nextSheetStatus s) ∧
  (¬ is_sheet_status s → nextSheetStatus s = "pending") ∧
  (is_sheet_status s → Nat.iter 3 nextSheetStatus s = s) ∧
  nextRecutSheetStatus s = nextSheetStatus s.
Proof.
  split; [apply nextSheetStatus_valid |]. split; [| split; [| done]].
  - intros Hn. unfold nextSheetStatus.
    destruct (String.eqb_spec s "pending") as [->|_]; [exfalso; apply Hn; by left |].
    destruct (String.eqb_spec s "cut") as [->|_]; [exfalso; apply Hn; right; by left |].
    done.
  - intros [->|[->| ->]]; reflexivity.
Qed.

Lemma cycle_on_every_string_witness : Nat.iter 3 nextSheetStatus "skip" = "skip".
Proof.
  exact (proj1 (proj2 (proj2 (cycle_on_every_string "skip")))
           (or_intror (or_intror eq_refl))).
Defined.

(** ** Broadcasts, sockets and what the handlers send *)

Section BroadcastFacts.
Context `{Builtins} {DB E : Type} `{!IStorage DB E}.
Implicit Types (req : Request) (st : ServerState DB).

Lemma try_storage_sockets {A} (call : DB → Settled E A * DB) failed st rest :
  (∀ a st', sockets (rest a st').2 = sockets st' ∨ status (rest a st').1 = 200) →
  (∀ a st', clients (rest a st').2 = clients st') →
  (sockets (try_storage call failed st rest).2 = sockets st ∨
   status (try_storage call failed st rest).1 = 200) ∧
  clients (try_storage call failed st rest).2 = clients st.
Proof.
  intros Hs Hc. unfold try_storage.
  destruct (call (db st)) as [[a|e] d]; [| by split; [left |]].
  split; [apply (Hs a (with_db st d)) | apply (Hc a (with_db st d))].
Qed.

Lemma broadcast_all_closed messages st ws :
  ws ∉ clients st →
  sockets (Access.broadcast_all messages st) !! ws = sockets st !! ws ∧
  clients (Access.broadcast_all messages st) = clients st.
Proof.
  unfold Access.broadcast_all. revert st.
  induction messages as [|message messages IH]; intros st Hws; simpl; [done |].
  destruct (IH (broadcastToClients message st) Hws) as [-> ->].
  split; [| done]. rewrite broadcast_delivery.
  destruct (sockets st !! ws) as [s|]; [| done].
  cbn [fmap option_fmap option_map].
  by rewrite decide_False by (intros [? _]; done).
Qed.

Lemma broadcast_all_open messages st ws s :
  ws ∈ clients st →
  sockets st !! ws = Some s →
  readyState s = OPEN →
  sockets (Access.broadcast_all messages st) !! ws
  = Some {| readyState := OPEN; sent := sent s ++ (JSON_stringify <$> messages) |}.
Proof.
  unfold Access.broadcast_all. revert st s.
  induction messages as [|message messages IH]; intros st s Hin Hs Ho; simpl.
  - rewrite app_nil_r, Hs. destruct s as [r l]. simpl in Ho. by rewrite Ho.
  - rewrite (IH (broadcastToClients message st)
               {| readyState := OPEN; sent := sent s ++ [JSON_stringify message] |}).
    + cbn [sent]. by rewrite <- app_assoc.
    + done.
    + rewrite broadcast_delivery, Hs. cbn [fmap option_fmap option_map].
      by rewrite decide_True by done.
    + done.
Qed.

End BroadcastFacts.

(** X7: one call of [broadcastToClients] appends the stringified
    message exactly once to every socket that is in the [clients] set
    and open; a socket that is not in the set, or is in it but not
    open, keeps what it had; the set and the database are untouched. *)
Theorem broadcast_once_to_each_open_client {DB : Type} message (st : ServerState DB) ws :
  sockets (broadcastToClients message st) !! ws
  = (λ s, if decide (ws ∈ clients st ∧ readyState s = OPEN)
          then {| readyState := OPEN; sent := sent s ++ [JSON_stringify message] |}
          else s) <$> sockets st !! ws ∧
  clients (broadcastToClients message st) = clients st ∧
  db (broadcastToClients message st) = db st.
Proof. split; [apply broadcast_delivery | done]. Qed.

(** X8: a socket that has closed or reported an error is out of the
    set: nothing of any later run of broadcasts reaches it.  A socket
    that has just connected receives every message of the run, in the
    order of the calls. *)
Theorem socket_lifecycle_and_broadcasts {DB : Type} messages (st : ServerState DB) ws :
  sockets (Access.broadcast_all messages (on_close ws st)) !! ws
  = sockets (on_close ws st) !! ws ∧
  sockets (Access.broadcast_all messages (on_error ws st)) !! ws = sockets st !! ws ∧
  sockets (Access.broadcast_all messages (on_connection ws st)) !! ws
  = Some {| readyState := OPEN; sent := JSON_stringify <$> messages |}.
Proof.
  assert (ws ∉ clients st ∖ {[ws]}) as Hout.
  { intros [_ Hn]%elem_of_difference. apply Hn. by apply elem_of_singleton. }
  repeat split.
  - by apply broadcast_all_closed.
  - by apply (broadcast_all_closed messages (on_error ws st) ws).
  - rewrite (broadcast_all_open messages (on_connection ws st) ws
               {| readyState := OPEN; sent := [] |}); [done | | | done].
    + simpl. apply elem_of_union. left. by apply elem_of_singleton.
    + simpl. apply lookup_insert_eq.
Qed.

Section HandlerFacts.
Context `{Builtins} {DB E : Type} `{!IStorage DB E}.
Implicit Types (req : Request) (st : ServerState DB).

(** X9: with any storage, a sheet handler sends to the sockets only
    when it answers 200: a request refused by [requireAuth], by a
    guard, or failing in storage leaves every socket as it was.  The
    add-sheets handler and the recut list never send anything, and no
    handler changes the [clients] set. *)
Theorem handlers_broadcast_only_with_200 req st :
  (sockets (post_materials_sheets req st).2 = sockets st ∨
   status (post_materials_sheets req st).1 = 200) ∧
  (sockets (put_materials_sheet_status req st).2 = sockets st ∨
   status (put_materials_sheet_status req st).1 = 200) ∧
  (sockets (delete_materials_sheet req st).2 = sockets st ∨
   status (delete_materials_sheet req st).1 = 200) ∧
  (sockets (post_materials_recuts req st).2 = sockets st ∨
   status (post_materials_recuts req st).1 = 200) ∧
  (sockets (post_jobs_materials req st).2 = sockets st ∨
   status (post_jobs_materials req st).1 = 200) ∧
  (sockets (put_recuts_sheet_status req st).2 = sockets st ∨
   status (put_recuts_sheet_status req st).1 = 200) ∧
  sockets (post_materials_add_sheets req st).2 = sockets st ∧
  sockets (get_materials_recuts req st).2 = sockets st ∧
  clients (post_materials_sheets req st).2 = clients st ∧
  clients (put_materials_sheet_status req st).2 = clients st ∧
  clients (delete_materials_sheet req st).2 = clients st ∧
  clients (post_materials_recuts req st).2 = clients st ∧
  clients (post_jobs_materials req st).2 = clients st ∧
  clients (put_recuts_sheet_status req st).2 = clients st ∧
  clients (post_materials_add_sheets req st).2 = clients st ∧
  clients (get_materials_recuts req st).2 = clients st.
Proof.
  unfold post_materials_sheets, put_materials_sheet_status, delete_materials_sheet,
    post_materials_recuts, post_jobs_materials, put_recuts_sheet_status,
    post_materials_add_sheets, get_materials_recuts, requireAuth.
  assert (∀ {A} (call : DB → Settled E A * DB) failed message,
            sockets (try_storage call failed st
                       (λ _ st', (message, st'))).2 = sockets st ∧
            clients (try_storage call failed st
                       (λ _ st', (message, st'))).2 = clients st) as Hquiet.
  { intros A call failed message. unfold try_storage.
    by destruct (call (db st)) as [[a|e] d]. }
  assert (∀ {A} (call : DB → Settled E A * DB) failed ok event,
            (sockets (try_storage call failed st
                        (λ _ st', (json_message 200 ok,
                                   broadcastToClients event st'))).2 = sockets st ∨
             status (try_storage call failed st
                       (λ _ st', (json_message 200 ok,
                                  broadcastToClients event st'))).1 = 200) ∧
            clients (try_storage call failed st
                       (λ _ st', (json_message 200 ok,
                                  broadcastToClients event st'))).2 = clients st)
    as Hloud.
  { intros A call failed ok event. apply try_storage_sockets; [by right | done]. }
  assert (sockets (get_materials_recuts req st).2 = sockets st ∧
          clients (get_materials_recuts req st).2 = clients st) as [Hgs Hgc].
  { unfold get_materials_recuts, try_storage.
    by destruct (getRecutEntries _ _) as [[a|e] d]. }
  unfold get_materials_recuts in Hgs, Hgc.
  destruct (session_user req) as [u|];
    [| by repeat split; try (by left)].
  unfold post_sheet_handler, sheet_status_handler, delete_sheet_handler,
    add_recut_handler, add_material_handler, recut_sheet_status_handler,
    add_sheets_handler. cbn zeta.
  repeat match goal with
         | |- context [if ?b then _ else _] => destruct b
         end;
  repeat split; try (by left); try done;
    try apply Hloud; try apply Hquiet.
Qed.

End HandlerFacts.

Section GuardFacts.
Context `{Builtins} {DB E : Type} `{!IStorage DB E}.
Implicit Types (req : Request) (st : ServerState DB).

(** X10: for a numeric [additionalSheets] the add-sheets handler
    answers 400 exactly when the number is below 1; any number from 1
    up, whole or not, is handed to [storage.addSheetsToMaterial] as it
    is.  A non-empty string that does not read as a number also passes
    the guard and reaches the storage call. *)
Theorem count_guard_lets_through req st :
  let call v :=
    try_storage (addSheetsToMaterial (param_int req "id") v (body_field req "isRecut"))
      "Failed to add sheets" st
      (λ _ st', (json_message 200 "Sheets added successfully", st')) in
  (∀ q, body_field req "additionalSheets" = JNum q →
        ((q < 1)%Q →
           add_sheets_handler req st
           = (json_message 400 "Additional sheets must be a positive number", st)) ∧
        ((1 <= q)%Q → add_sheets_handler req st = call (JNum q))) ∧
  (∀ s, body_field req "additionalSheets" = JStr s →
        s ≠ "" → StringToNumber s = None →
        add_sheets_handler req st = call (JStr s)).
Proof.
  cbn zeta. split.
  - intros q Hq. unfold add_sheets_handler. cbn zeta. rewrite Hq. split; intros Hlt.
    + by rewrite lt_num_below_one, orb_true_r.
    + assert (lt_num (JNum q) 1 = false) as ->.
      { unfold lt_num. simpl. apply negb_false_iff. by apply Qle_bool_iff. }
      assert (truthy (JNum q) = true) as ->; [| done].
      simpl. apply negb_true_iff. destruct (Qeq_bool q 0) eqn:Hz; [| done].
      apply Qeq_bool_iff in Hz. rewrite Hz in Hlt. by apply Qle_bool_iff in Hlt.
  - intros s Hs Hne Hnum. unfold add_sheets_handler. cbn zeta. rewrite Hs.
    assert (truthy (JStr s) = true) as ->.
    { simpl. apply negb_true_iff. by apply String.eqb_neq. }
    unfold lt_num. simpl. by rewrite Hnum.
Qed.

End GuardFacts.

Lemma count_guard_lets_through_witness :
  (add_sheets_handler
     (count_request (Some operator) "5" (Some (JNum (3 # 2)))) three_viewers).1
  = json_message 500 "Failed to add sheets".
Proof.
  rewrite (proj2 (proj1 (count_guard_lets_through
                           (count_request (Some operator) "5" (Some (JNum (3 # 2))))
                           three_viewers) (3 # 2) eq_refl)).
  - reflexivity.
  - discriminate.
Defined.

(** ** Role checks and user deletion *)

Section AccessFacts.
Context `{Builtins} {DB E : Type} `{!Access.IUserDeletion DB E}.
Implicit Types (req : Request) (st : ServerState DB) (next : @Handler DB).

(** X11: the three session checks are nested.  Without a session user
    [requireAuth] answers 401 and the two role checks 403; role "user"
    passes [requireAuth] only; role "super_admin" passes all three; any
    other role, known or not, passes [requireAuth] and [requireAdmin]
    but not [requireSuperAdmin].  A refused request leaves the server
    state untouched. *)
Theorem session_checks_are_nested next req st :
  match session_user req with
  | None =>
      requireAuth next req st = (unauthorized, st) ∧
      Access.requireAdmin next req st = (Access.forbidden "Admin access required", st) ∧
      Access.requireSuperAdmin next req st
      = (Access.forbidden "Super admin access required", st)
  | Some u =>
      requireAuth next req st = next req st ∧
      Access.requireAdmin next req st
      = (if String.eqb (role u) "user"
         then (Access.forbidden "Admin access required", st) else next req st) ∧
      Access.requireSuperAdmin next req st
      = (if String.eqb (role u) "super_admin"
         then next req st else (Access.forbidden "Super admin access required", st)) ∧
      (Access.requireSuperAdmin next req st = next req st ∨
       Access.requireSuperAdmin next req st
       = (Access.forbidden "Super admin access required", st)) ∧
      (role u = "super_admin" → Access.requireAdmin next req st = next req st)
  end.
Proof.
  unfold requireAuth, Access.requireAdmin, Access.requireSuperAdmin.
  destruct (session_user req) as [u|]; [| done].
  repeat split.
  - destruct (String.eqb (role u) "super_admin"); [by left | by right].
  - intros ->. done.
Qed.

(** X12: DELETE /api/users/:id never deletes the account of the
    caller: when the id of the path reads as the id of the session
    user, whatever the caller's role, the answer is not 200 and the
    server state, database included, is what it was:
    [storage.deleteUser] is not called. *)
Theorem own_account_is_never_deleted req st u :
  session_user req = Some u →
  Access.is_user_id (param_int req "id") (user_id u) = true →
  (Access.delete_users req st).2 = st ∧
  status (Access.delete_users req st).1 ≠ 200 ∧
  (role u = "super_admin" →
     Access.delete_users req st
     = (json_message 400 "Cannot delete your own account", st)).
Proof.
  intros Hu Hid.
  unfold Access.delete_users, Access.requireSuperAdmin, Access.delete_user_handler.
  rewrite Hu. cbn zeta. rewrite Hid.
  destruct (String.eqb_spec (role u) "super_admin") as [Hr|Hr].
  - repeat split; done.
  - repeat split; done.
Qed.

End AccessFacts.

Lemma own_account_is_never_deleted_witness :
  (Access.delete_users (Sample.delete_request "1") (Sample.no_sockets {[1; 2]})).2
  = Sample.no_sockets {[1; 2]}.
Proof.
  exact (proj1 (own_account_is_never_deleted
                  (Sample.delete_request "1") (Sample.no_sockets {[1; 2]})
                  {| user_id := 1; username := "root"; role := "super_admin" |}
                  eq_refl eq_refl)).
Defined.

(** ** Login, session refresh and setup *)

Section AuthFacts.
Import Auth.
Context `{AuthBuiltins} {DB E : Type} `{!IUserStorage DB E}.
Implicit Types (req : AuthRequest) (d : DB).

(** X13: the user name of a login is looked up in lower case: two
    login requests whose user names lower-case to the same string, with
    the same password and session, get the same answer and leave the
    same session and database. *)
Theorem login_ignores_case save_ok req req' d l l' :
  loginSchema_parse (a_req_body req) = Some l →
  loginSchema_parse (a_req_body req') = Some l' →
  toLowerCase (login_username l) = toLowerCase (login_username l') →
  login_password l = login_password l' →
  session req = session req' →
  login_handler save_ok req d = login_handler save_ok req' d.
Proof.
  intros Hl Hl' Hu Hp Hs. unfold login_handler.
  by rewrite Hl, Hl', Hu, Hp, Hs.
Qed.

(** X14: a login is answered 200 only for a body that passes
    [loginSchema], a user row found under the lower-cased name and a
    password [bcrypt.compare] accepts; the session user is then that
    row and the response shows its id, name and role.  When the
    password is not accepted, the user is unknown or the body is
    refused, the session is what it was before. *)
Theorem login_sets_session_only_on_match save_ok req d :
  let r := login_handler save_ok req d in
  (∀ resp, response r = Some resp → a_status resp = 200 →
     ∃ l user,
       loginSchema_parse (a_req_body req) = Some l ∧
       (getUserByUsername (toLowerCase (login_username l)) d).1 = Resolved (Some user) ∧
       bcrypt_compare (login_password l) (u_password user) = true ∧
       session_after r = Some user ∧
       a_body resp = public user) ∧
  (session_after r ≠ session req →
     ∃ l user,
       loginSchema_parse (a_req_body req) = Some l ∧
       (getUserByUsername (toLowerCase (login_username l)) d).1 = Resolved (Some user) ∧
       bcrypt_compare (login_password l) (u_password user) = true ∧
       session_after r = Some user).
Proof.
  cbn zeta. unfold login_handler.
  destruct (loginSchema_parse (a_req_body req)) as [l|]; simpl;
    [| split; [intros resp [= <-]; done | done]].
  destruct (getUserByUsername (toLowerCase (login_username l)) d) as [[[user|]|e] d1]
    eqn:Hget; simpl; try (split; [intros resp [= <-]; done | done]).
  destruct (bcrypt_compare (login_password l) (u_password user)) eqn:Hc; simpl;
    [| split; [intros resp [= <-]; done | done]].
  destruct save_ok; simpl.
  - split.
    + intros resp [= <-] _. exists l, user. by rewrite Hget.
    + intros _. exists l, user. by rewrite Hget.
  - split; [intros resp [= <-]; done |].
    intros _. exists l, user. by rewrite Hget.
Qed.

(** X15: GET /api/me reads the user again: when the row is still
    there the session takes the fresh row and the response shows its
    current role; when the row is gone the answer is 401 and the
    session keeps the old user; without a session the answer is 401
    and storage is not asked. *)
Theorem me_refreshes_the_session req d :
  match session req with
  | Some u =>
      (∀ fresh d1, getUser (u_id u) d = (Resolved (Some fresh), d1) →
         session_after (me_handler req d) = Some fresh ∧
         response (me_handler req d)
         = Some {| a_status := 200;
                   a_body := PublicUser (u_id fresh) (u_username fresh) (u_role fresh) |}) ∧
      (∀ d1, getUser (u_id u) d = (Resolved None, d1) →
         session_after (me_handler req d) = Some u ∧
         response (me_handler req d)
         = Some {| a_status := 401; a_body := Message "User not found" |})
  | None =>
      me_handler req d = answer 401 (Message "Not authenticated") None d
  end.
Proof.
  unfold me_handler. destruct (session req) as [u|] eqn:Hs; [| done].
  split.
  - intros fresh d1 ->. done.
  - intros d1 ->. simpl. rewrite ?Hs. done.
Qed.

(** X16: setup runs once.  When [storage.getAllUsers] returns any
    user, POST /api/setup answers 400, creates nothing, and GET
    /api/setup/required says false; when it returns none,
    /api/setup/required says true, and setup answers 200 only for a
    user name and a password that are non-empty strings, after
    [storage.createUser] was given the lower-cased name, the hash and
    the role "super_admin". *)
Theorem setup_runs_once hashed req d existing d1 :
  getAllUsers d = (Resolved existing, d1) →
  response (setup_required_handler req d)
  = Some {| a_status := 200; a_body := Required (bool_decide (existing = [])) |} ∧
  (existing ≠ [] →
     setup_handler hashed req d
     = answer 400 (Message "Setup already completed") (session req) d1) ∧
  (∀ resp, response (setup_handler hashed req d) = Some resp → a_status resp = 200 →
     existing = [] ∧
     ∃ u p row,
       a_req_body req !! "username" = Some (JStr u) ∧ u ≠ "" ∧
       a_req_body req !! "password" = Some (JStr p) ∧ p ≠ "" ∧
       createUser {| n_username := toLowerCase u; n_password := hashed;
                     n_role := "super_admin" |} d1
       = (Resolved row, db_after (setup_handler hashed req d))).
Proof.
  intros Hall. unfold setup_required_handler, setup_handler. rewrite Hall.
  destruct existing as [|row0 rows]; simpl.
  - split; [done |]. split; [done |].
    destruct (a_req_body req !! "username") as [username|] eqn:Hu; simpl;
      [| intros resp [= <-]; done].
    destruct (a_req_body req !! "password") as [password|] eqn:Hp; simpl;
      [| rewrite orb_true_r; intros resp [= <-]; done].
    destruct (negb (truthy username) || negb (truthy password)) eqn:Hguard;
      [intros resp [= <-]; done |].
    apply orb_false_iff in Hguard as [Htu Htp].
    apply negb_false_iff in Htu, Htp.
    destruct password as [| |b|q| |p|o]; try (intros resp [= <-]; done).
    destruct username as [| |b|q| |u|o]; try (intros resp [= <-]; done).
    destruct (createUser _ d1) as [[row|e] d2] eqn:Hcreate; simpl;
      [| intros resp [= <-]; done].
    intros resp _ _. split; [done |]. exists u, p, row.
    simpl in Htu, Htp. apply negb_true_iff in Htu, Htp.
    apply String.eqb_neq in Htu, Htp. done.
  - split; [done |]. split; [done |]. intros resp [= <-]. done.
Qed.

End AuthFacts.

Lemma login_ignores_case_witness :
  Auth.login_handler true (login_request "Alice" "secret") [alice]
  = Auth.login_handler true (login_request "alice" "secret") [alice].
Proof.
  exact (login_ignores_case true (login_request "Alice" "secret")
           (login_request "alice" "secret") [alice]
           {| Auth.login_username := "Alice"; Auth.login_password := "secret" |}
           {| Auth.login_username := "alice"; Auth.login_password := "secret" |}
           eq_refl eq_refl eq_refl eq_refl eq_refl).
Defined.

Lemma login_sets_session_only_on_match_witness :
  ∃ l user,
    Auth.loginSchema_parse (Auth.a_req_body (login_request "ALICE" "secret")) = Some l ∧
    (Auth.getUserByUsername (Auth.toLowerCase (Auth.login_username l)) [alice]).1
    = Resolved (Some user) ∧
    Auth.bcrypt_compare (Auth.login_password l) (Auth.u_password user) = true ∧
    Auth.session_after (Auth.login_handler true (login_request "ALICE" "secret") [alice])
    = Some user.
Proof.
  apply (proj2 (login_sets_session_only_on_match true
                  (login_request "ALICE" "secret") [alice])).
  discriminate.
Defined.

Lemma setup_runs_once_witness :
  Auth.setup_handler "hash:secret" (login_request "Root" "secret") [alice]
  = Auth.answer 400 (Auth.Message "Setup already completed") None [alice].
Proof.
  exact (proj1 (proj2 (setup_runs_once "hash:secret" (login_request "Root" "secret")
                         [alice] [alice] [alice] eq_refl))
           ltac:(discriminate)).
Defined.

(** On the empty table setup creates the super admin under the
    lower-cased name; a second setup is refused. *)
Example setup_then_setup_again :
  let first := Auth.setup_handler "hash:secret" (login_request "Root" "secret") [] in
  Auth.db_after first
  = [{| Auth.u_id := 1; Auth.u_username := "root"; Auth.u_password := "hash:secret";
        Auth.u_email := None; Auth.u_role := "super_admin" |}] ∧
  Auth.response (Auth.setup_handler "hash:other" (login_request "Eve" "x") (Auth.db_after first))
  = Some {| Auth.a_status := 400;
            Auth.a_body := Auth.Message "Setup already completed" |}.
Proof. vm_compute. split; reflexivity. Qed.

(** ** Job creation *)

Section JobFacts.
Import Jobs.

Lemma parse_material_ok j m : parse_material j = Some m → material_ok m.
Proof.
  unfold parse_material, material_ok.
  destruct j as [|?|?|?|?|fields]; try done.
  destruct (get_field "colorId" fields) as [[|?|c|?|?|?]|]; try done.
  destruct (get_field "totalSheets" fields) as [[|?|t|?|?|?]|]; try done.
  destruct (Qle_bool 1 c) eqn:Hc; [| done].
  destruct (Qle_bool 1 t) eqn:Ht; [| done].
  simpl. intros [= <-]. simpl. split; by apply Qle_bool_iff.
Qed.

Lemma parse_material_encode m :
  material_ok m → parse_material (encode_material m) = Some m.
Proof.
  intros [Hc Ht]. unfold parse_material, encode_material. simpl.
  apply Qle_bool_iff in Hc, Ht. rewrite Hc, Ht. simpl. by destruct m.
Qed.

Lemma createJobSchema_sound body j : createJobSchema_parse body = Some j → job_ok j.
Proof.
  unfold createJobSchema_parse, job_ok.
  destruct body as [|?|?|?|?|fields]; try done.
  destruct (get_field "customerName" fields) as [[|?|?|customer|?|?]|]; try done.
  destruct (get_field "jobName" fields) as [[|?|?|name|?|?]|]; try done.
  destruct (get_field "materials" fields) as [[|?|?|?|items|?]|]; try done.
  destruct (String.eqb_spec customer "") as [|Hc]; [done |].
  destruct (String.eqb_spec name "") as [|Hn]; [done |]. simpl.
  destruct (mapM parse_material items) as [[|m ms]|] eqn:Hm; try done.
  intros [= <-]. simpl. repeat split; try done.
  apply mapM_Some_1 in Hm.
  eapply Forall2_Forall_r; [exact Hm |].
  apply Forall_forall. intros x _ y. apply parse_material_ok.
Qed.

Lemma createJobSchema_complete j :
  job_ok j → createJobSchema_parse (encode_job j) = Some j.
Proof.
  destruct j as [customer name ms]. intros (Hc & Hn & Hne & Hms). simpl in *.
  unfold createJobSchema_parse, encode_job. simpl.
  apply String.eqb_neq in Hc, Hn. rewrite Hc, Hn. simpl.
  rewrite (mapM_fmap_Forall_Some parse_material encode_material ms).
  - by destruct ms.
  - eapply Forall_impl; [exact Hms |]. intros m. apply parse_material_encode.
Qed.

(** X17: [createJobSchema] accepts a body only when it yields a job
    with a non-empty customer name, a non-empty job name and at least
    one material, every material with [colorId] and [totalSheets] of at
    least 1; and every such job, written into a body, is accepted and
    read back unchanged.  Whole numbers are not asked for: a
    [totalSheets] of 3/2 passes. *)
Theorem createJobSchema_accepts_exactly_valid_jobs :
  (∀ body j, createJobSchema_parse body = Some j → job_ok j) ∧
  (∀ j, job_ok j → createJobSchema_parse (encode_job j) = Some j) ∧
  (∀ body j, createJobSchema_parse body = Some j →
             createJobSchema_parse (encode_job j) = Some j).
Proof.
  split; [apply createJobSchema_sound |]. split; [apply createJobSchema_complete |].
  intros body j Hj. apply createJobSchema_complete. by apply (createJobSchema_sound body).
Qed.

Lemma createJobSchema_accepts_exactly_valid_jobs_witness :
  createJobSchema_parse (encode_job kitchen) = Some kitchen.
Proof.
  apply (proj1 (proj2 createJobSchema_accepts_exactly_valid_jobs)).
  repeat split; try discriminate.
  apply Forall_singleton. split; discriminate.
Defined.

Section PostJobsFacts.
Context {DB E J : Type} `{!IJobStorage DB E J}.
Variable job_fields : J → list (string * jsval).

(** X18: POST /api/jobs hands [storage.createJob] only jobs that
    passed [createJobSchema]; a body the schema refuses and a job the
    storage call rejects are both answered 400 "Invalid job data", and
    in neither case, nor without a session, is anything broadcast. *)
Theorem post_jobs_validates_before_storage req (st : ServerState DB) :
  (createJobSchema_parse (jr_body req) = None →
     create_job_handler job_fields req st
     = ({| jr_status := 400; jr_answer := inl "Invalid job data" |}, st) ∧
     (post_jobs job_fields req st).2 = st) ∧
  (jr_status (post_jobs job_fields req st).1 ≠ 200 →
     sockets (post_jobs job_fields req st).2 = sockets st) ∧
  (jr_status (post_jobs job_fields req st).1 = 200 →
     ∃ jobData job d,
       createJobSchema_parse (jr_body req) = Some jobData ∧ job_ok jobData ∧
       createJob jobData (db st) = (Resolved job, d) ∧
       jr_answer (post_jobs job_fields req st).1 = inr job ∧
       db (post_jobs job_fields req st).2 = d).
Proof.
  unfold post_jobs, create_job_handler.
  destruct (createJobSchema_parse (jr_body req)) as [jobData|] eqn:Hparse;
    [| by destruct (jr_session_user req)].
  destruct (jr_session_user req) as [u|]; [| by repeat split].
  destruct (createJob jobData (db st)) as [[job|e] d] eqn:Hcreate; simpl.
  - split; [done |]. split; [done |]. intros _. exists jobData, job, d.
    repeat split; try done.
    all: by apply (createJobSchema_sound (jr_body req)).
  - by repeat split.
Qed.

End PostJobsFacts.

End JobFacts.

(** ** The recut list against the sheet grid *)

Section RecutFacts.
Import Recuts.
Implicit Types (rs : RecutsState) (st : PopupState) (r : RecutEntry).

Lemma mirrored_ids (l : list (nat * RecutContext)) :
  (prod_map Datatypes.id as_context <$> l).*1 = l.*1.
Proof.
  induction l as [|[k ctx] l IH]; [done |].
  rewrite !fmap_cons. f_equal. exact IH.
Qed.

Lemma mirrored_find k (l : list (nat * RecutContext)) :
  list_find (λ x, x.1 = k) (prod_map Datatypes.id as_context <$> l)
  = prod_map Datatypes.id (prod_map Datatypes.id as_context)
      <$> list_find (λ x, x.1 = k) l.
Proof.
  rewrite list_find_fmap. f_equal.
Qed.

Lemma mirrored_filter k (l : list (nat * RecutContext)) :
  filter (λ x, x.1 ≠ k) (prod_map Datatypes.id as_context <$> l)
  = prod_map Datatypes.id as_context <$> filter (λ x, x.1 ≠ k) l.
Proof.
  induction l as [|[k0 ctx] l IH]; [done |].
  rewrite fmap_cons. destruct (decide (k0 = k)) as [->|Hne].
  - rewrite !filter_cons_False by (intros Hk; by apply Hk). exact IH.
  - rewrite !filter_cons_True by done. rewrite fmap_cons. by rewrite IH.
Qed.

Lemma mirrored_button rs st k index :
  mirrors rs st →
  renderedButton st 0 k index = as_material <$> renderedRecutButton rs k index.
Proof.
  intros (Hj & He & Hm & _).
  unfold renderedButton, renderedMaterial, renderedRecutButton.
  rewrite He, Hm, Hj. simpl.
  destruct (recuts rs) as [l|]; [| done]. simpl.
  rewrite list_lookup_fmap. destruct (l !! k) as [r|]; [| done]. simpl.
  by destruct (bool_decide (Z.of_nat index < quantity r)).
Qed.

Lemma mirrored_pending rs st : mirrors rs st → isPending st = recutIsPending rs.
Proof.
  intros (_ & _ & _ & _ & Hi & Hc & _). unfold isPending, recutIsPending.
  by rewrite Hc, Hi, mirrored_ids.
Qed.

Lemma mirrored_display rs st r index :
  mirrors rs st →
  displayedStatus st (as_material r) index = recutDisplayedStatus rs r index.
Proof.
  intros (_ & _ & _ & Ho & _).
  unfold displayedStatus, recutDisplayedStatus, optimisticStatus, optimisticRecutStatus.
  by rewrite Ho.
Qed.

Lemma step_keeps_mirror e rs st :
  mirrors rs st → mirrors (recutStep e rs) (step (as_event e) st).
Proof.
  intros Hmir. destruct e as [k index|k reply|l]; simpl.
  - unfold clickSheetButton, clickRecutButton.
    rewrite (mirrored_button rs st k index Hmir), (mirrored_pending rs st Hmir).
    destruct (renderedRecutButton rs k index) as [r|]; [| done]. simpl.
    destruct (recutIsPending rs); [done |].
    rewrite (mirrored_display rs st r index Hmir).
    destruct Hmir as (Hj & He & Hm & Ho & Hi & Hc & Hn & Ha & Ht & Hv).
    unfold mirrors, handleSheetClick, handleRecutSheetClick, mutate, onMutate,
      recutMutate, optimisticStatus, optimisticRecutStatus. simpl.
    rewrite Ho, Hi, Hn, Ha, !fmap_app. repeat split; done.
  - destruct Hmir as (Hj & He & Hm & Ho & Hi & Hc & Hn & Ha & Ht & Hv).
    unfold settle, recutSettle. rewrite Hi, mirrored_find.
    destruct (list_find (λ x, x.1 = k) (r_inFlight rs)) as [[i [k' ctx]]|]; simpl;
      [| by repeat split].
    destruct reply as [|message]; unfold mirrors; simpl;
      rewrite ?Hi, ?mirrored_filter, ?Ho, ?length_app; simpl;
      repeat split; try done; lia.
  - destruct Hmir as (Hj & He & Hm & Ho & Hi & Hc & Hn & Ha & Ht & Hv).
    by repeat split.
Qed.

Lemma run_keeps_mirror es rs st :
  mirrors rs st → mirrors (recutRun es rs) (run_events (as_event <$> es) st).
Proof.
  unfold recutRun, run_events. revert rs st.
  induction es as [|e es IH]; intros rs st Hmir; simpl; [done |].
  apply IH. by apply step_keeps_mirror.
Qed.

Lemma mounted_mirror mid jid l :
  mirrors (recutsRefetched l (recutsMounted mid jid)) (mounted jid (as_job l)).
Proof. by repeat split. Qed.

(** X19: the recut list is the sheet grid under another name.  Read a
    recut entry as a material of [quantity] sheets and the list as one
    cutlist: from states that hold the same thing, any clicks, answers
    and refetches leave the recut list displaying, for every recut
    sheet, what the sheet grid displays for the matching sheet, with
    the same requests sent and the buttons disabled at the same times. *)
Theorem recut_list_mirrors_sheet_grid es rs st :
  mirrors rs st →
  let rs' := recutRun es rs in
  let st' := run_events (as_event <$> es) st in
  (∀ r index, recutDisplayedStatus rs' r index
              = displayedStatus st' (as_material r) index) ∧
  as_call <$> r_apiCalls rs' = apiCalls st' ∧
  recutIsPending rs' = isPending st' ∧
  (∀ k index, as_material <$> renderedRecutButton rs' k index
              = renderedButton st' 0 k index).
Proof.
  intros Hmir rs' st'.
  pose proof (run_keeps_mirror es rs st Hmir) as Hrun. fold rs' st' in Hrun.
  repeat split.
  - intros r index. symmetry. by apply mirrored_display.
  - by destruct Hrun as (_ & _ & _ & _ & _ & _ & _ & -> & _).
  - symmetry. by apply mirrored_pending.
  - intros k index. symmetry. by apply mirrored_button.
Qed.

End RecutFacts.

Lemma recut_list_mirrors_sheet_grid_witness :
  let es := [Recuts.RecutClick 1 0; Recuts.RecutAnswer 0 (Failure None)] in
  Recuts.as_call
    <$> Recuts.r_apiCalls
          (Recuts.recutRun es (Recuts.recutsRefetched two_recuts (Recuts.recutsMounted 5 1)))
  = apiCalls (run_events (Recuts.as_event <$> es) (mounted 1 (Recuts.as_job two_recuts))).
Proof.
  exact (proj1 (proj2 (recut_list_mirrors_sheet_grid
                         [Recuts.RecutClick 1 0; Recuts.RecutAnswer 0 (Failure None)]
                         (Recuts.recutsRefetched two_recuts (Recuts.recutsMounted 5 1))
                         (mounted 1 (Recuts.as_job two_recuts))
                         (mounted_mirror 5 1 two_recuts)))).
Defined.

(** The rollback of the recut list has the defect of the sheet grid:
    sheet 0 of the second recut is "cut" on the server, a click shows
    "skip", the failure leaves "pending". *)
Example recut_rollback_shows_pending :
  let rs := Recuts.recutsRefetched two_recuts (Recuts.recutsMounted 5 1) in
  let rs' := Recuts.recutRun [Recuts.RecutClick 1 0; Recuts.RecutAnswer 0 (Failure None)] rs in
  (λ r, Recuts.recutDisplayedStatus rs r 0) <$> two_recuts !! 1%nat = Some "cut" ∧
  (λ r, Recuts.recutDisplayedStatus rs' r 0) <$> two_recuts !! 1%nat = Some "pending".
Proof. vm_compute. repeat split; reflexivity. Qed.

(** ** The category filter *)

Section SuppliesFacts.
Import Supplies.

Lemma categories_NoDup : NoDup categories.
Proof. apply (bool_decide_unpack (NoDup categories)). by vm_compute. Qed.

Lemma toggleCategory_elem c y prev :
  y ∈ toggleCategory c prev ↔ (y = c ∧ c ∉ prev) ∨ (y ≠ c ∧ y ∈ prev).
Proof.
  unfold toggleCategory. case_bool_decide as Hin.
  - rewrite list_elem_of_filter. split.
    + intros [Hne Hy]. by right.
    + intros [[-> Hn]|[Hne Hy]]; [done | by split].
  - rewrite elem_of_app, list_elem_of_singleton. split.
    + intros [Hy| ->]; [| by left].
      right. split; [| done]. by intros ->.
    + intros [[-> _]|[_ Hy]]; [by right | by left].
Qed.

Lemma filterStep_keeps e selected :
  NoDup selected ∧ (∀ c, c ∈ selected → c ∈ categories) →
  NoDup (filterStep e selected) ∧ (∀ c, c ∈ filterStep e selected → c ∈ categories).
Proof.
  intros [Hnd Hsub]. destruct e as [i|]; simpl.
  - destruct (categories !! i) as [category|] eqn:Hi; [| done]. split.
    + unfold toggleCategory. case_bool_decide as Hin; [by apply NoDup_filter |].
      apply NoDup_app. split; [done |]. split; [| apply NoDup_singleton].
      intros x Hx Hx'. apply list_elem_of_singleton in Hx' as ->. done.
    + intros c [[-> _]|[_ Hc]]%toggleCategory_elem; [| by apply Hsub].
      by eapply list_elem_of_lookup_2.
  - unfold toggleAllCategories.
    destruct (length selected =? length categories)%nat.
    + split; [apply NoDup_nil_2 |]. by intros c Hc%elem_of_nil.
    + split; [apply categories_NoDup | done].
Qed.

(** X20: whatever boxes of the category filter are clicked, the
    selection holds no category twice and only known categories; so
    the "All" box, which compares lengths only, is checked exactly when
    every category is selected, and a click on it then clears the
    selection and otherwise selects every category.  A click on one
    category flips that category and no other. *)
Theorem category_filter_selection es :
  let selected := selectionAfter es in
  NoDup selected ∧
  (∀ c, c ∈ selected → c ∈ categories) ∧
  (allChecked selected = true ↔ ∀ c, c ∈ categories → c ∈ selected) ∧
  (toggleAllCategories selected
   = if allChecked selected then [] else categories) ∧
  (∀ c y, y ∈ toggleCategory c selected ↔
          (y = c ∧ c ∉ selected) ∨ (y ≠ c ∧ y ∈ selected)).
Proof.
  cbn zeta.
  assert (NoDup (selectionAfter es) ∧ ∀ c, c ∈ selectionAfter es → c ∈ categories)
    as [Hnd Hsub].
  { unfold selectionAfter.
    assert (∀ start, NoDup start ∧ (∀ c, c ∈ start → c ∈ categories) →
              NoDup (foldl (λ acc e, filterStep e acc) start es) ∧
              ∀ c, c ∈ foldl (λ acc e, filterStep e acc) start es → c ∈ categories)
      as Hrun.
    { induction es as [|e es IH]; intros start Hstart; simpl; [done |].
      apply IH. by apply filterStep_keeps. }
    apply Hrun. split; [apply categories_NoDup | done]. }
  split; [done |]. split; [done |]. split; [| split; [done |]].
  - pose proof (NoDup_submseteq _ _ Hnd Hsub) as Hle.
    unfold allChecked. rewrite Nat.eqb_eq. split.
    + intros Hlen c Hc.
      assert (selectionAfter es ≡ₚ categories) as Hperm.
      { apply submseteq_length_Permutation; [done |]. rewrite Hlen. done. }
      by rewrite Hperm.
    + intros Hall.
      pose proof (NoDup_submseteq _ _ categories_NoDup Hall) as Hge.
      apply submseteq_length in Hle, Hge. lia.
  - intros c y. apply toggleCategory_elem.
Qed.

End SuppliesFacts.

Lemma post_jobs_validates_before_storage_witness :
  Jobs.post_jobs (λ _, [])
    {| Jobs.jr_session_user := Some operator; Jobs.jr_body := Jobs.JsArr [] |}
    {| db := [kitchen]; sockets := ∅; clients := ∅ |}
  = ({| Jobs.jr_status := 400; Jobs.jr_answer := inl "Invalid job data" |},
     {| db := [kitchen]; sockets := ∅; clients := ∅ |}).
Proof.
  exact (proj1 (proj1 (post_jobs_validates_before_storage (λ _, [])
                         {| Jobs.jr_session_user := Some operator;
                            Jobs.jr_body := Jobs.JsArr [] |}
                         {| db := [kitchen]; sockets := ∅; clients := ∅ |})
                  eq_refl)).
Defined.

(** A job with one material of one and a half sheets is created and
    announced. *)
Example post_jobs_accepts_fractional_sheets :
  let '(res, st') :=
    Jobs.post_jobs (λ job, [("customerName", JStr (Jobs.in_customerName job))])
      {| Jobs.jr_session_user := Some operator; Jobs.jr_body := Jobs.encode_job kitchen |}
      (on_connection 1 {| db := []; sockets := ∅; clients := ∅ |}) in
  Jobs.jr_status res = 200 ∧ db st' = [kitchen] ∧
  sockets st' !! 1%nat
  = Some {| readyState := OPEN;
            sent := [{| msg_type := "job_created";
                        msg_data := [("customerName", JStr "Smith")] |}] |}.
Proof. vm_compute. repeat split; reflexivity. Qed.

(** ** Updating a user *)

Section UserUpdateFacts.
Import Auth Users.
Context `{Builtins} `{AuthBuiltins} {DB E : Type} `{!IUserUpdate DB E}.






End UserUpdateFacts.


(** Renaming user 2 to the name of user 1, in any case, is refused;
    renaming it to a free name and promoting it goes through. *)
Example rename_to_taken_name_is_refused :
  (Users.update_user_handler "hash:new" "2" {["username" := JStr "Alice"]} [alice; bob]).1
  = {| Users.u_status := 400; Users.u_body := Users.UserMessage "Username already exists" |} ∧
  (Users.update_user_handler "hash:new" "2"
     (<["username" := JStr "Robert"]> {["role" := JStr "admin"]}) [alice; bob])
  = ({| Users.u_status := 200; Users.u_body := Users.UserJson 2 "robert" None "admin" |},
     [alice;
      {| Auth.u_id := 2; Auth.u_username := "robert"; Auth.u_password := "hash:hunter2";
         Auth.u_email := None; Auth.u_role := "admin" |}]).
Proof. vm_compute. split; reflexivity. Qed.

(** A role that is the empty string or null is not checked: the
    update goes through and the row keeps its role. *)
Example falsy_role_is_skipped :
  Users.update_user_handler "hash:new" "2" {["role" := JStr ""]} [alice; bob]
  = ({| Users.u_status := 200; Users.u_body := Users.UserJson 2 "bob" None "user" |},
     [alice; bob]) ∧
  Users.update_user_handler "hash:new" "2" {["role" := JNull]} [alice; bob]
  = Users.update_user_handler "hash:new" "2" ∅ [alice; bob].
Proof. vm_compute. split; reflexivity. Qed.
